(** * Apollo API client ([apo_docopt.py]): a shallow embedding and its properties

  The program is a command-line client: it reads an API key from the file
  [api_key.key], parses its arguments with docopt and runs one of four
  handlers, each of which calls [requests.post] and prints what came back.

  Everything the program does is an effect, so the embedding is a small
  state-and-exception monad over an explicit environment:
  - the environment [env] fixes what the outside world answers: which files
    exist and what they hold, what [pd.read_csv] makes of a path, and what
    every call of [requests.post] returns or raises;
  - the state is the chronological list of the effects performed so far
    ([Print], [LogError], [Post], ...) and the number of requests issued;
  - a Python exception is a value of [exn], threaded by the monad and
    caught by [try_except] with the class test of the [except] clause.

  Python [str] values are modelled by [string]; a character stands for the
  code point of the same number (0 to 255). *)

From stdpp Require Import base list strings gmap pretty.
From Stdlib Require Import Ascii ZArith Lia.

Local Open Scope Z_scope.
#[local] Set Warnings "-register-all".

(** ** Python strings *)

Module PyStr.

(** The line feed, [\n]. *)
Definition LF : string := String (ascii_of_nat 10) EmptyString.

(** [str.isspace] on one character: the code points below 256 that CPython
    classifies as whitespace (TAB, LF, VT, FF, CR, FS, GS, RS, US, space,
    NEL and the no-break space). *)
Definition isspace (c : ascii) : bool :=
  let n := nat_of_ascii c in
  ((9 <=? n) && (n <=? 13) || (28 <=? n) && (n <=? 32)
   || (n =? 133) || (n =? 160))%nat.

(** [str.lstrip()]. *)
Fixpoint lstrip (s : string) : string :=
  match s with
  | EmptyString => EmptyString
  | String c s' => if isspace c then lstrip s' else s
  end.

(** [str.rstrip()]. *)
Fixpoint rstrip (s : string) : string :=
  match s with
  | EmptyString => EmptyString
  | String c s' =>
      match rstrip s' with
      | EmptyString => if isspace c then EmptyString else String c EmptyString
      | r => String c r
      end
  end.

(** [str.strip()] with no argument: whitespace is removed at both ends. *)
Definition strip (s : string) : string := rstrip (lstrip s).

(** Every character of [s] is whitespace. *)
Fixpoint all_space (s : string) : bool :=
  match s with
  | EmptyString => true
  | String c s' => isspace c && all_space s'
  end.

(** The first and the last character of [s], if any, are not whitespace. *)
Definition first_nonspace (s : string) : bool :=
  match s with
  | EmptyString => true
  | String c _ => negb (isspace c)
  end.

Fixpoint last_nonspace (s : string) : bool :=
  match s with
  | EmptyString => true
  | String c EmptyString => negb (isspace c)
  | String _ s' => last_nonspace s'
  end.

End PyStr.

(** ** JSON values and [json.dumps] *)

Module Json.

(** A value as [response.json()] returns it and as [requests.post(json=...)]
    takes it: [dict] (its items in insertion order), [list], [str], [int],
    [float], [bool] and [None]. Floating point is not modelled: a [float] is
    carried by the text that [float.__repr__] gives for it ([nan], [inf] and
    [-inf] for the values that are not finite). *)
Inductive json : Type :=
| JNull
| JBool (b : bool)
| JInt (n : Z)
| JFloat (repr : string)
| JStr (s : string)
| JArr (items : list json)
| JObj (members : list (string * json)).

Definition DQ : string := String (ascii_of_nat 34) EmptyString.
Definition BACKSLASH : string := String (ascii_of_nat 92) EmptyString.

(** One lower-case hexadecimal digit. *)
Definition hex_digit (d : nat) : ascii :=
  ascii_of_nat (if (d <? 10)%nat then 48 + d else 87 + d)%nat.

(** What [json.encoder.py_encode_basestring_ascii] writes for one character:
    the short escapes, the character itself from space to tilde, and
    [\u00xx] for the rest. *)
Definition escape_char (c : ascii) : string :=
  let n := nat_of_ascii c in
  if (n =? 92)%nat then BACKSLASH +:+ BACKSLASH
  else if (n =? 34)%nat then BACKSLASH +:+ DQ
  else if (n =? 8)%nat then BACKSLASH +:+ "b"
  else if (n =? 12)%nat then BACKSLASH +:+ "f"
  else if (n =? 10)%nat then BACKSLASH +:+ "n"
  else if (n =? 13)%nat then BACKSLASH +:+ "r"
  else if (n =? 9)%nat then BACKSLASH +:+ "t"
  else if ((32 <=? n) && (n <=? 126))%nat then String c EmptyString
  else BACKSLASH +:+ "u00"
       +:+ String (hex_digit (n / 16)) (String (hex_digit (n mod 16)) EmptyString).

Fixpoint escape (s : string) : string :=
  match s with
  | EmptyString => EmptyString
  | String c s' => escape_char c +:+ escape s'
  end.

Definition encode_basestring_ascii (s : string) : string :=
  DQ +:+ escape s +:+ DQ.

(** What the encoder writes for a [float]: [NaN], [Infinity] and [-Infinity]
    for the values that are not finite, [float.__repr__] for the others. *)
Definition float_text (repr : string) : string :=
  if decide (repr = "nan") then "NaN"
  else if decide (repr = "inf") then "Infinity"
  else if decide (repr = "-inf") then "-Infinity"
  else repr.

(** A line break followed by [level] indentation steps of [indent] spaces. *)
Definition newline_indent (indent level : nat) : string :=
  PyStr.LF +:+ String.string_of_list_ascii (replicate (indent * level) " "%char).

(** The encoder of [json.dumps(v, indent=indent)] at nesting depth [level]:
    an empty container is written closed on one line, any other one item per
    line, items separated by a comma, a key and its value by a colon and a
    space. *)
Fixpoint encode (indent level : nat) (v : json) {struct v} : string :=
  match v with
  | JNull => "null"
  | JBool true => "true"
  | JBool false => "false"
  | JInt n => pretty n
  | JFloat r => float_text r
  | JStr s => encode_basestring_ascii s
  | JArr [] => "[]"
  | JArr items =>
      "[" +:+ newline_indent indent (S level)
      +:+ String.concat ("," +:+ newline_indent indent (S level))
            (List.map (encode indent (S level)) items)
      +:+ newline_indent indent level +:+ "]"
  | JObj [] => "{}"
  | JObj members =>
      "{" +:+ newline_indent indent (S level)
      +:+ String.concat ("," +:+ newline_indent indent (S level))
            (List.map (fun kv => encode_basestring_ascii (fst kv) +:+ ": "
                                 +:+ encode indent (S level) (snd kv)) members)
      +:+ newline_indent indent level +:+ "}"
  end.

Definition dumps (v : json) (indent : nat) : string := encode indent 0 v.

End Json.
Export Json.

(** ** Exceptions, effects and the environment *)

(** The classes the program's [except] clauses tell apart. [OtherException]
    stands for every other subclass of [Exception] (a connection error, an
    [OSError] of pandas, ...). *)
Inductive exn_class : Type :=
| FileNotFoundError
| ValueError
| HTTPError
| OtherException.

(** An exception: its class and [str(e)]. *)
Record exn : Type := Exn { exn_cls : exn_class; exn_msg : string }.

(** The class tests of the [except] clauses of the program. *)
Definition is_FileNotFoundError (e : exn) : bool :=
  match exn_cls e with FileNotFoundError => true | _ => false end.

Definition is_FileNotFoundError_or_ValueError (e : exn) : bool :=
  match exn_cls e with FileNotFoundError | ValueError => true | _ => false end.

Definition is_HTTPError (e : exn) : bool :=
  match exn_cls e with HTTPError => true | _ => false end.

Definition is_Exception (e : exn) : bool := true.

(** The [headers] dictionary. *)
Definition headers_t : Type := gmap string string.

(** One call of [requests.post(url, headers=headers, json=body)]. *)
Record request : Type := Request {
  req_url : string;
  req_headers : headers_t;
  req_json : json
}.

(** A [requests.Response], as far as the program looks at it. [resp_json] is
    the outcome of [response.json()]: the decoded body, or the exception
    raised for a body that is not JSON. *)
Record response : Type := Response {
  status_code : Z;
  resp_reason : string;
  resp_url : string;
  resp_text : string;
  resp_json : exn + json
}.

(** A row of the loaded table, as [row.to_dict()] gives it: column names and
    cell values. *)
Definition row : Type := list (string * json).

(** The effects of the program, in the order in which they happen. *)
Inductive event : Type :=
| LogError (msg : string)       (* logger.error(msg) *)
| Print (msg : string)          (* print(msg) *)
| OpenRead (path : string)      (* open(path, 'r') and file.read() *)
| ReadCsv (path : string)       (* pd.read_csv(path) *)
| Post (r : request)            (* requests.post(...) *)
| DocoptMessage (msg : string)  (* the help, version or usage text of docopt *)
| Traceback (e : exn).          (* an exception nobody caught *)

(** What a path names: a text file with its content, or a directory. *)
Inductive node : Type :=
| File (content : string)
| Dir.

(** What the world answers. [env_fs] holds the paths that exist.
    [env_post k r] is the outcome of the call of [requests.post] with
    request [r] when [k] requests were issued before it: a response, or the
    exception of a transport failure.
    [env_read_csv path] is the outcome of [pd.read_csv(path)] on an existing
    path (pandas raises subclasses of [ValueError] for an empty or malformed
    file and an [OSError] for a directory or an unreadable file).
    [env_str_row] is [str()] of a pandas row and [env_str_json] is [str()]
    of a decoded JSON value; both are left to the libraries. *)
Record env : Type := Env {
  env_fs : gmap string node;
  env_read_csv : string -> exn + list row;
  env_post : nat -> request -> exn + response;
  env_str_row : row -> string;
  env_str_json : json -> string
}.

(** The state a run threads: the effects so far, oldest first, and the
    number of requests issued. *)
Record state : Type := State { trace : list event; sent : nat }.

Definition initial : state := State [] 0.

(** How a computation ends: with a value, with a raised exception, or with
    [SystemExit] (which no [except Exception] clause catches). *)
Inductive outcome (A : Type) : Type :=
| Ok (a : A)
| Raise (e : exn)
| Exit (code : Z).
Arguments Ok {A} a.
Arguments Raise {A} e.
Arguments Exit {A} code.

Definition M (A : Type) : Type := state -> state * outcome A.

#[global] Instance M_ret : MRet M := fun A a s => (s, Ok a).

#[global] Instance M_bind : MBind M := fun A B f m s =>
  match m s with
  | (s', Ok a) => f a s'
  | (s', Raise e) => (s', Raise e)
  | (s', Exit c) => (s', Exit c)
  end.

Definition emit (e : event) : M unit :=
  fun s => (State (trace s ++ [e]) (sent s), Ok tt).

Definition raise {A : Type} (e : exn) : M A := fun s => (s, Raise e).

(** [exit(code)]. *)
Definition exit {A : Type} (code : Z) : M A := fun s => (s, Exit code).

Definition lift {A : Type} (r : exn + A) : M A :=
  match r with inl e => raise e | inr a => mret a end.

(** [try: body except C1 as e: h1 except C2 as e: h2 ...]: the first clause
    whose class test accepts the exception handles it; an exception raised
    by a handler is not caught by the clauses that follow. *)
Fixpoint select_handler {A : Type} (clauses : list ((exn -> bool) * (exn -> M A)))
    (e : exn) : M A :=
  match clauses with
  | [] => raise e
  | (accepts, handler) :: rest =>
      if accepts e then handler e else select_handler rest e
  end.

Definition try_except {A : Type} (body : M A)
    (clauses : list ((exn -> bool) * (exn -> M A))) : M A :=
  fun s =>
    match body s with
    | (s', Raise e) => select_handler clauses e s'
    | r => r
    end.

(** [for x in xs: body(x)]. *)
Fixpoint for_each {A : Type} (xs : list A) (body : A -> M unit) : M unit :=
  match xs with
  | [] => mret tt
  | x :: rest => body x ;; for_each rest body
  end.

Definition logger_error (msg : string) : M unit := emit (LogError msg).
Definition print (msg : string) : M unit := emit (Print msg).

(** [os.path.exists(path)]. *)
Definition path_exists (E : env) (path : string) : bool :=
  bool_decide (is_Some (env_fs E !! path)).

(** [with open(path, 'r') as file: file.read()]. *)
Definition open_read (E : env) (path : string) : M string :=
  match env_fs E !! path with
  | Some (File content) => emit (OpenRead path) ;; mret content
  | Some Dir =>
      raise (Exn OtherException ("[Errno 21] Is a directory: '" +:+ path +:+ "'"))
  | None =>
      raise (Exn FileNotFoundError
               ("[Errno 2] No such file or directory: '" +:+ path +:+ "'"))
  end.

(** [pd.read_csv(path)]; the rows are those that [data.iterrows()] yields. *)
Definition read_csv (E : env) (path : string) : M (list row) :=
  emit (ReadCsv path) ;; lift (env_read_csv E path).

(** [requests.post(url, headers=headers, json=body)]. *)
Definition requests_post (E : env) (url : string) (headers : headers_t)
    (body : json) : M response :=
  fun s =>
    let r := Request url headers body in
    (State (trace s ++ [Post r]) (S (sent s)),
     match env_post E (sent s) r with inl e => Raise e | inr resp => Ok resp end).

(** The [HTTPError] that [Response.raise_for_status()] of requests builds
    for a client error (400 to 499) or a server error (500 to 599). *)
Definition http_error (resp : response) : option exn :=
  let code := status_code resp in
  if (400 <=? code) && (code <? 500) then
    Some (Exn HTTPError (pretty code +:+ " Client Error: " +:+ resp_reason resp
                         +:+ " for url: " +:+ resp_url resp))
  else if (500 <=? code) && (code <? 600) then
    Some (Exn HTTPError (pretty code +:+ " Server Error: " +:+ resp_reason resp
                         +:+ " for url: " +:+ resp_url resp))
  else None.

(** [response.raise_for_status()]. *)
Definition raise_for_status (resp : response) : M unit :=
  match http_error resp with
  | Some e => raise e
  | None => mret tt
  end.

(** [response.json()]. *)
Definition response_json (resp : response) : M json := lift (resp_json resp).

(** ** The program *)

Definition BASE_URL : string := "https://api.apollo.io/v1".

(** [read_api_key()]. *)
Definition read_api_key (E : env) : M string :=
  (if negb (path_exists E "api_key.key") then
     logger_error "API key file 'api_key.key' not found." ;;
     raise (Exn FileNotFoundError "API key file 'api_key.key' not found.")
   else mret tt) ;;
  content ← open_read E "api_key.key" ;
  mret (PyStr.strip content).

(** The two [except] clauses that follow the request of a row in
    [upload_data]: the error is logged, then printed. *)
Definition upload_clauses : list ((exn -> bool) * (exn -> M unit)) :=
  [ (is_HTTPError, fun http_err =>
       logger_error ("HTTP error occurred: " +:+ exn_msg http_err) ;;
       print ("HTTP error occurred: " +:+ exn_msg http_err));
    (is_Exception, fun err =>
       logger_error ("An error occurred: " +:+ exn_msg err) ;;
       print ("An error occurred: " +:+ exn_msg err)) ].

(** [upload_data(file_path, data_type)]; [headers] is the global of the
    script. *)
Definition upload_data (E : env) (headers : headers_t)
    (file_path data_type : string) : M unit :=
  (if negb (path_exists E file_path) then
     logger_error ("CSV file '" +:+ file_path +:+ "' not found.") ;;
     raise (Exn FileNotFoundError ("CSV file '" +:+ file_path +:+ "' not found."))
   else mret tt) ;;
  data ← read_csv E file_path ;
  url ← (if decide (data_type = "contact") then mret (BASE_URL +:+ "/contacts")
         else if decide (data_type = "company") then mret (BASE_URL +:+ "/accounts")
         else
           logger_error ("Unsupported data type: " +:+ data_type) ;;
           raise (Exn ValueError ("Unsupported data type: " +:+ data_type))) ;
  for_each data (fun row =>
    try_except
      (response ← requests_post E url headers (JObj row) ;
       raise_for_status response ;;
       print ("Successfully uploaded: " +:+ env_str_row E row))
      upload_clauses).

(** [enumerate(xs, start=start)]. *)
Fixpoint enumerate {A : Type} (xs : list A) (start : nat) : list (nat * A) :=
  match xs with
  | [] => []
  | x :: rest => (start, x) :: enumerate rest (S start)
  end.

(** [pretty_print_json(data)]. *)
Definition pretty_print_json (data : json) : M unit :=
  match (match data with
         | JObj _ => Some [data]
         | JArr items => Some items
         | _ => None
         end) with
  | Some data_items =>
      for_each (enumerate data_items 1) (fun '(idx, item) =>
        print ("Item " +:+ pretty idx +:+ ":") ;;
        print (dumps item 4))
  | None =>
      logger_error "Unexpected data format. Expected a list or dict." ;;
      print "Unexpected data format."
  end.

(** [enrich_domains(domains)]. *)
Definition enrich_domains (E : env) (headers : headers_t)
    (domains : list string) : M unit :=
  let url := "https://api.apollo.io/api/v1/organizations/bulk_enrich" in
  let data := JObj [("domains", JArr (JStr <$> domains))] in
  response ← requests_post E url headers data ;
  if decide (status_code response = 200) then
    response_data ← response_json response ;
    pretty_print_json response_data
  else
    print ("Error: " +:+ pretty (status_code response)) ;;
    print (resp_text response).

(** What [docopt(__doc__, version=...)] makes of the command line. The usage
    text has four commands, so the dictionary it returns has exactly one of
    the keys [company], [create], [upload] and [enrich] set, together with
    the arguments of that command; for [--help], [--version] and a command
    line that matches no usage pattern docopt writes a text and ends the
    process itself. *)
Inductive arguments : Type :=
| Company (query : string)
| Create (name email company : string)
| Upload (type file : string)
| Enrich (domains : list string).

Inductive docopt_result : Type :=
| Parsed (a : arguments)
| DocoptExit (msg : string) (code : Z).

Definition docopt (r : docopt_result) : M arguments :=
  match r with
  | Parsed a => mret a
  | DocoptExit msg code => emit (DocoptMessage msg) ;; exit code
  end.

(** The [except] clauses of the [company] and [create] branches: the error
    is printed, then logged. *)
Definition main_clauses : list ((exn -> bool) * (exn -> M unit)) :=
  [ (is_HTTPError, fun http_err =>
       print ("HTTP error occurred: " +:+ exn_msg http_err) ;;
       logger_error ("HTTP error occurred: " +:+ exn_msg http_err));
    (is_Exception, fun err =>
       print ("An error occurred: " +:+ exn_msg err) ;;
       logger_error ("An error occurred: " +:+ exn_msg err)) ].

Definition make_headers (api_key : string) : headers_t :=
  {[ "Cache-Control" := "no-cache";
     "Content-Type" := "application/json";
     "X-Api-Key" := api_key ]}.

(** The [company] branch. *)
Definition company_branch (E : env) (headers : headers_t) (query : string) : M unit :=
  let search_url := BASE_URL +:+ "/accounts" in
  let params := JObj [("name", JStr query)] in
  try_except
    (response ← requests_post E search_url headers params ;
     raise_for_status response ;;
     response_data ← response_json response ;
     pretty_print_json response_data)
    main_clauses.

(** The [create] branch. *)
Definition create_branch (E : env) (headers : headers_t)
    (name email company : string) : M unit :=
  let create_url := BASE_URL +:+ "/contacts" in
  let data := JObj [("first_name", JStr name); ("email", JStr email);
                    ("company", JStr company)] in
  try_except
    (response ← requests_post E create_url headers data ;
     raise_for_status response ;;
     if decide (status_code response = 201) then
       created ← response_json response ;
       print ("Contact created: " +:+ env_str_json E created)
     else if decide (status_code response = 200) then
       print ("Solicitud aceptada: " +:+ resp_text response)
     else mret tt)
    main_clauses.

(** The [upload] branch. *)
Definition upload_branch (E : env) (headers : headers_t)
    (data_type file_path : string) : M unit :=
  try_except (upload_data E headers file_path data_type)
    [ (is_FileNotFoundError_or_ValueError, fun e =>
         print ("Error: " +:+ exn_msg e) ;;
         logger_error ("Error: " +:+ exn_msg e)) ].

(** The [enrich] branch. *)
Definition enrich_branch (E : env) (headers : headers_t)
    (domains : list string) : M unit :=
  try_except (enrich_domains E headers domains)
    [ (is_Exception, fun e =>
         print ("Error: " +:+ exn_msg e) ;;
         logger_error ("Error: " +:+ exn_msg e)) ].

(** The script under [if __name__ == '__main__']. *)
Definition main (E : env) (argv : docopt_result) : M unit :=
  api_key ← try_except (read_api_key E)
    [ (is_FileNotFoundError, fun e =>
         print ("Error: " +:+ exn_msg e) ;;
         logger_error "Exiting due to missing API key file." ;;
         exit 1) ] ;
  let headers := make_headers api_key in
  arguments ← docopt argv ;
  match arguments with
  | Company query => company_branch E headers query
  | Create name email company => create_branch E headers name email company
  | Upload data_type file_path => upload_branch E headers data_type file_path
  | Enrich domains => enrich_branch E headers domains
  end.

(** A run of the process: the script starts in the empty state; the exit
    code is 0 when it runs to its end, the code of [exit] when it calls
    that, and 1 after the traceback of an exception nobody caught. *)
Definition run (E : env) (argv : docopt_result) : Z * list event :=
  match main E argv initial with
  | (s, Ok _) => (0, trace s)
  | (s, Exit code) => (code, trace s)
  | (s, Raise e) => (1, trace s ++ [Traceback e])
  end.

Definition exit_code (E : env) (argv : docopt_result) : Z := fst (run E argv).
Definition effects (E : env) (argv : docopt_result) : list event := snd (run E argv).

(** ** Reading a trace *)

(** The requests issued, in order. *)
Fixpoint posts (tr : list event) : list request :=
  match tr with
  | [] => []
  | Post r :: rest => r :: posts rest
  | _ :: rest => posts rest
  end.

(** The texts printed, one for each call of [print], in order (a text may
    span several lines). *)
Fixpoint printed (tr : list event) : list string :=
  match tr with
  | [] => []
  | Print msg :: rest => msg :: printed rest
  | _ :: rest => printed rest
  end.

(** The messages logged, in order. *)
Fixpoint logged (tr : list event) : list string :=
  match tr with
  | [] => []
  | LogError msg :: rest => msg :: logged rest
  | _ :: rest => logged rest
  end.

(** The tables loaded with [pd.read_csv], in order. *)
Fixpoint csv_reads (tr : list event) : list string :=
  match tr with
  | [] => []
  | ReadCsv path :: rest => path :: csv_reads rest
  | _ :: rest => csv_reads rest
  end.

(** The files the script itself opens with [open] and reads, in order (the
    table of an upload is opened by pandas: see [csv_reads]). *)
Fixpoint file_reads (tr : list event) : list string :=
  match tr with
  | [] => []
  | OpenRead path :: rest => path :: file_reads rest
  | _ :: rest => file_reads rest
  end.

(** The exception a remote call ends with, if it fails: the one that
    [requests.post] raises (a transport error), or the [HTTPError] of a
    response with an HTTP error status. *)
Definition call_error (o : exn + response) : option exn :=
  match o with
  | inl e => Some e
  | inr resp => http_error resp
  end.

(** The request [upload_data] sends for a row. *)
Definition upload_request (url : string) (headers : headers_t) (r : row) : request :=
  Request url headers (JObj r).

(** The line the [company], [create] and [upload] handlers print and log
    for an exception: the clause for [HTTPError] comes first. *)
Definition error_report (e : exn) : string :=
  (if is_HTTPError e then "HTTP error occurred: " else "An error occurred: ")
  +:+ exn_msg e.

(** The line [upload_data] prints for a row: the report of its failure, or
    the success message. *)
Definition upload_line (E : env) (url : string) (headers : headers_t)
    (k : nat) (r : row) : string :=
  match call_error (env_post E k (upload_request url headers r)) with
  | Some e => error_report e
  | None => "Successfully uploaded: " +:+ env_str_row E r
  end.

(** The effects of the loop of [upload_data] over [rows] when [k] requests
    were issued before it. *)
Fixpoint upload_events (E : env) (url : string) (headers : headers_t)
    (k : nat) (rows : list row) : list event :=
  match rows with
  | [] => []
  | r :: rest =>
      Post (upload_request url headers r)
      :: match call_error (env_post E k (upload_request url headers r)) with
         | Some e => [LogError (error_report e); Print (error_report e)]
         | None => [Print ("Successfully uploaded: " +:+ env_str_row E r)]
         end
      ++ upload_events E url headers (S k) rest
  end.

(** The endpoint of an upload type. *)
Definition upload_url (data_type : string) : option string :=
  if decide (data_type = "contact") then Some (BASE_URL +:+ "/contacts")
  else if decide (data_type = "company") then Some (BASE_URL +:+ "/accounts")
  else None.

(** ** What the handlers leave in the trace *)

(** The two lines printed for the item numbered [idx]. *)
Definition item_lines (idx : nat) (item : json) : list event :=
  [Print ("Item " +:+ pretty idx +:+ ":"); Print (dumps item 4)].

(** The effects of [pretty_print_json data]. *)
Definition pretty_printed (data : json) : list event :=
  match data with
  | JObj _ => item_lines 1 data
  | JArr items => concat (imap (fun i item => item_lines (S i) item) items)
  | _ => [LogError "Unexpected data format. Expected a list or dict.";
          Print "Unexpected data format."]
  end.

(** What the [company] and [create] branches do with an exception. *)
Definition report_events (e : exn) : list event :=
  [Print (error_report e); LogError (error_report e)].

(** What the [enrich] branch does with an exception. *)
Definition enrich_report_events (e : exn) : list event :=
  [Print ("Error: " +:+ exn_msg e); LogError ("Error: " +:+ exn_msg e)].

(** The request of the [company] branch. *)
Definition company_request (h : headers_t) (query : string) : request :=
  Request "https://api.apollo.io/v1/accounts" h (JObj [("name", JStr query)]).

(** The effects of the [company] branch after its request, by the outcome
    of the request. *)
Definition company_events (o : exn + response) : list event :=
  match o with
  | inl e => report_events e
  | inr resp =>
      match http_error resp with
      | Some e => report_events e
      | None =>
          match resp_json resp with
          | inl e => report_events e
          | inr data => pretty_printed data
          end
      end
  end.

(** The request of the [create] branch. *)
Definition create_request (h : headers_t) (name email company : string) : request :=
  Request "https://api.apollo.io/v1/contacts" h
    (JObj [("first_name", JStr name); ("email", JStr email); ("company", JStr company)]).

(** The effects of the [create] branch after its request. *)
Definition create_events (E : env) (o : exn + response) : list event :=
  match o with
  | inl e => report_events e
  | inr resp =>
      match http_error resp with
      | Some e => report_events e
      | None =>
          if decide (status_code resp = 201) then
            match resp_json resp with
            | inl e => report_events e
            | inr created => [Print ("Contact created: " +:+ env_str_json E created)]
            end
          else if decide (status_code resp = 200) then
            [Print ("Solicitud aceptada: " +:+ resp_text resp)]
          else []
      end
  end.

(** The request of [enrich_domains]. *)
Definition enrich_request (h : headers_t) (domains : list string) : request :=
  Request "https://api.apollo.io/api/v1/organizations/bulk_enrich" h
    (JObj [("domains", JArr (JStr <$> domains))]).

(** The effects of the [enrich] branch after its request. *)
Definition enrich_events (o : exn + response) : list event :=
  match o with
  | inl e => enrich_report_events e
  | inr resp =>
      if decide (status_code resp = 200) then
        match resp_json resp with
        | inl e => enrich_report_events e
        | inr data => pretty_printed data
        end
      else [Print ("Error: " +:+ pretty (status_code resp)); Print (resp_text resp)]
  end.

(** ** The properties claimed of a run *)

(** An effect that, if it is a request, carries the headers [h]. *)
Definition carries (h : headers_t) (e : event) : Prop :=
  match e with
  | Post r => req_headers r = h
  | _ => True
  end.

(** The run reports the unsupported-type error of [upload_data]: the
    function logs it and the [upload] branch prints it. *)
Definition reports_unsupported_type (tr : list event) (data_type : string) : Prop :=
  LogError ("Unsupported data type: " +:+ data_type) ∈ tr
  /\ Print ("Error: Unsupported data type: " +:+ data_type) ∈ tr.

(** Some printed line is a [Contact created] message. *)
Definition prints_created (tr : list event) : Prop :=
  exists rest, ("Contact created: " +:+ rest) ∈ printed tr.

(** The failure [e] of a remote call is printed and logged: some line that
    ends with [str(e)] is both printed and logged. *)
Definition printed_and_logged (tr : list event) (e : exn) : Prop :=
  exists pre, (pre +:+ exn_msg e) ∈ printed tr /\ (pre +:+ exn_msg e) ∈ logged tr.

(** Every remote call of the run that failed is printed and logged. The
    [k]-th request of the trace is the one the service answered with
    [env_post E k]. *)
Definition failures_reported (E : env) (tr : list event) : Prop :=
  forall k r e,
    posts tr !! k = Some r -> call_error (env_post E k r) = Some e ->
    printed_and_logged tr e.

(** ** Sample worlds *)

Module Sample.

(** What [response.json()] raises for a body that is not JSON. *)
Definition not_json : exn + json :=
  inl (Exn ValueError "Expecting value: line 1 column 1 (char 0)").

(** A response of the service. *)
Definition answer (code : Z) (reason text : string) (body : exn + json) : response :=
  Response code reason "https://api.apollo.io/" text body.

(** The text of a table of three contacts, and its rows as pandas loads
    them. *)
Definition table_text : string :=
  "first_name,email" +:+ PyStr.LF
  +:+ "Ada,ada@example.com" +:+ PyStr.LF
  +:+ "Bob,bob@example.com" +:+ PyStr.LF
  +:+ "Cy,cy@example.com" +:+ PyStr.LF.

Definition rows3 : list row :=
  [ [("first_name", JStr "Ada"); ("email", JStr "ada@example.com")];
    [("first_name", JStr "Bob"); ("email", JStr "bob@example.com")];
    [("first_name", JStr "Cy"); ("email", JStr "cy@example.com")] ].

(** [pd.read_csv] in the sample worlds: the table loads; any other path is
    a directory, which pandas cannot open. *)
Definition read_csv_sample (path : string) : exn + list row :=
  if decide (path = "rows.csv") then inr rows3
  else inl (Exn OtherException ("[Errno 21] Is a directory: '" +:+ path +:+ "'")).

(** A world with the credential file holding [key], a table [rows.csv] of
    three rows, a directory [data], and a service whose answers are [post]. *)
Definition world (key : string) (post : nat -> request -> exn + response) : env :=
  Env {[ "api_key.key" := File key; "rows.csv" := File table_text; "data" := Dir ]}
      read_csv_sample post (fun _ => "<row>") (fun _ => "<json>").

(** The same world without the credential file. *)
Definition no_key : env :=
  Env {[ "rows.csv" := File table_text; "data" := Dir ]}
      read_csv_sample (fun _ _ => inr (answer 200 "OK" "{}" (inr (JObj []))))
      (fun _ => "<row>") (fun _ => "<json>").

(** A service that answers every request with [o]. *)
Definition always (o : exn + response) : nat -> request -> exn + response :=
  fun _ _ => o.

(** A service that fails the second request with status 500 and accepts
    every other one. *)
Definition second_fails : nat -> request -> exn + response :=
  fun k _ =>
    if decide (k = 1%nat)
    then inr (answer 500 "Internal Server Error" "oops" not_json)
    else inr (answer 200 "OK" "{}" (inr (JObj []))).

(** A world whose credential path is a directory. *)
Definition key_is_directory : env :=
  Env {[ "api_key.key" := Dir; "rows.csv" := File table_text ]}
      read_csv_sample second_fails (fun _ => "<row>") (fun _ => "<json>").

(** A world with the credential [ABC123] and two files that pandas does not
    load: [empty.csv], for which it raises a [ValueError], and the directory
    [data], for which it raises an [OSError]. *)
Definition unreadable_tables : env :=
  Env {[ "api_key.key" := File "ABC123"; "empty.csv" := File EmptyString; "data" := Dir ]}
      (fun path =>
         if decide (path = "empty.csv")
         then inl (Exn ValueError "No columns to parse from file")
         else inl (Exn OtherException ("[Errno 21] Is a directory: '" +:+ path +:+ "'")))
      second_fails (fun _ => "<row>") (fun _ => "<json>").

End Sample.

(** ** Reasoning about computations *)

Ltac unfold_monad :=
  unfold mbind, mret, M_bind, M_ret, logger_error, print, emit, raise, exit, lift.

(** [appends P m]: whatever the state, [m] only adds effects to the trace,
    and every effect it adds satisfies [P]. *)
Definition appends {A : Type} (P : event -> Prop) (m : M A) : Prop :=
  forall s, exists tr, trace (m s).1 = trace s ++ tr /\ Forall P tr.

(** ** Running a computation one step *)

Lemma bind_run {A B : Type} (m : M A) (f : A -> M B) (s : state) :
  (m ≫= f) s
  = match m s with
    | (s', Ok a) => f a s'
    | (s', Raise e) => (s', Raise e)
    | (s', Exit c) => (s', Exit c)
    end.
Proof. reflexivity. Qed.

Lemma try_run {A : Type} (body : M A) (clauses : list ((exn -> bool) * (exn -> M A)))
    (s : state) :
  try_except body clauses s
  = match body s with
    | (s', Raise e) => select_handler clauses e s'
    | r => r
    end.
Proof. reflexivity. Qed.

Lemma ret_run {A : Type} (a : A) (s : state) : (mret a : M A) s = (s, Ok a).
Proof. reflexivity. Qed.

Lemma raise_run {A : Type} (e : exn) (s : state) : @raise A e s = (s, Raise e).
Proof. reflexivity. Qed.

Lemma emit_run (e : event) (s : state) :
  emit e s = (State (trace s ++ [e]) (sent s), Ok tt).
Proof. reflexivity. Qed.

Lemma post_run (E : env) (url : string) (h : headers_t) (body : json) (s : state) :
  requests_post E url h body s
  = (State (trace s ++ [Post (Request url h body)]) (S (sent s)),
     match env_post E (sent s) (Request url h body) with
     | inl e => Raise e
     | inr resp => Ok resp
     end).
Proof. reflexivity. Qed.

Lemma raise_for_status_run (resp : response) (s : state) :
  raise_for_status resp s
  = (s, match http_error resp with Some e => Raise e | None => Ok tt end).
Proof. unfold raise_for_status. by destruct (http_error resp). Qed.

Lemma lift_run {A : Type} (r : exn + A) (s : state) :
  lift r s = (s, match r with inl e => Raise e | inr a => Ok a end).
Proof. by destruct r. Qed.

(** ** Traces that are concatenations *)

Lemma posts_app (tr1 tr2 : list event) : posts (tr1 ++ tr2) = posts tr1 ++ posts tr2.
Proof.
  induction tr1 as [|e tr1 IH]; [done|].
  destruct e; simpl; by rewrite ?IH.
Qed.

Lemma printed_app (tr1 tr2 : list event) :
  printed (tr1 ++ tr2) = printed tr1 ++ printed tr2.
Proof.
  induction tr1 as [|e tr1 IH]; [done|].
  destruct e; simpl; by rewrite ?IH.
Qed.

Lemma logged_app (tr1 tr2 : list event) :
  logged (tr1 ++ tr2) = logged tr1 ++ logged tr2.
Proof.
  induction tr1 as [|e tr1 IH]; [done|].
  destruct e; simpl; by rewrite ?IH.
Qed.

(** ** Whitespace stripping *)

Section Strip.
Import PyStr.

Lemma lstrip_spaces (w s : string) :
  all_space w = true -> lstrip (w +:+ s) = lstrip s.
Proof.
  induction w as [|c w IH]; simpl; [done|].
  intros [Hc Hw]%andb_prop. rewrite Hc. auto.
Qed.

Lemma lstrip_all_space (w : string) : all_space w = true -> lstrip w = EmptyString.
Proof.
  induction w as [|c w IH]; simpl; [done|].
  intros [Hc Hw]%andb_prop. rewrite Hc. auto.
Qed.

Lemma lstrip_id (s : string) : first_nonspace s = true -> lstrip s = s.
Proof.
  destruct s as [|c s]; simpl; [done|].
  intros Hc%negb_true_iff. by rewrite Hc.
Qed.

Lemma rstrip_all_space (w : string) : all_space w = true -> rstrip w = EmptyString.
Proof.
  induction w as [|c w IH]; simpl; [done|].
  intros [Hc Hw]%andb_prop. by rewrite IH, Hc.
Qed.

Lemma rstrip_spaces (s w : string) :
  all_space w = true -> rstrip (s +:+ w) = rstrip s.
Proof.
  intros Hw. induction s as [|c s IH]; simpl.
  - by apply rstrip_all_space.
  - by rewrite IH.
Qed.

Lemma rstrip_id (s : string) : last_nonspace s = true -> rstrip s = s.
Proof.
  induction s as [|c s IH]; [done|].
  destruct s as [|c' s].
  - simpl. intros Hc%negb_true_iff. by rewrite Hc.
  - intros Hs. change (last_nonspace (String c' s) = true) in Hs.
    change (rstrip (String c (String c' s)))
      with (match rstrip (String c' s) with
            | EmptyString => if isspace c then EmptyString else String c EmptyString
            | r => String c r
            end).
    by rewrite (IH Hs).
Qed.

Lemma first_nonspace_app (s w : string) :
  s <> EmptyString -> first_nonspace (s +:+ w) = first_nonspace s.
Proof. by destruct s. Qed.

(** Whitespace on either side of a key that neither starts nor ends with
    whitespace is removed by [strip]. *)
Lemma strip_surrounded (w1 key w2 : string) :
  all_space w1 = true -> all_space w2 = true ->
  first_nonspace key = true -> last_nonspace key = true ->
  strip (w1 +:+ key +:+ w2) = key.
Proof.
  intros H1 H2 Hf Hl. unfold strip. rewrite lstrip_spaces by done.
  destruct (decide (key = EmptyString)) as [->|Hne].
  - simpl. by rewrite lstrip_all_space.
  - rewrite lstrip_id by (by rewrite first_nonspace_app).
    rewrite rstrip_spaces by done. by apply rstrip_id.
Qed.

End Strip.

(** ** Invariants of the trace *)

Section Appends.
Context (P : event -> Prop).

Lemma appends_ret {A : Type} (a : A) : appends P (mret a).
Proof. intros s. exists []. by rewrite app_nil_r. Qed.

Lemma appends_raise {A : Type} (e : exn) : appends P (@raise A e).
Proof. intros s. exists []. by rewrite app_nil_r. Qed.

Lemma appends_exit {A : Type} (c : Z) : appends P (@exit A c).
Proof. intros s. exists []. by rewrite app_nil_r. Qed.

Lemma appends_lift {A : Type} (r : exn + A) : appends P (lift r).
Proof. destruct r; [apply appends_raise | apply appends_ret]. Qed.

Lemma appends_emit (e : event) : P e -> appends P (emit e).
Proof. intros He s. exists [e]. split; [done | by constructor]. Qed.

Lemma appends_bind {A B : Type} (m : M A) (f : A -> M B) :
  appends P m -> (forall a, appends P (f a)) -> appends P (m ≫= f).
Proof.
  intros Hm Hf s. destruct (Hm s) as (tr1 & E1 & F1).
  unfold mbind, M_bind. destruct (m s) as [s1 [a|e|c]]; simpl in *.
  - destruct (Hf a s1) as (tr2 & E2 & F2). exists (tr1 ++ tr2).
    rewrite E2, E1, app_assoc. split; [done | by apply Forall_app].
  - by exists tr1.
  - by exists tr1.
Qed.

Lemma appends_select {A : Type} (clauses : list ((exn -> bool) * (exn -> M A))) (e : exn) :
  Forall (fun cl => forall e', appends P (cl.2 e')) clauses ->
  appends P (select_handler clauses e).
Proof.
  induction 1 as [|[accepts handler] rest Hh _ IH]; simpl.
  - apply appends_raise.
  - destruct (accepts e); [apply Hh | apply IH].
Qed.

Lemma appends_try {A : Type} (body : M A) (clauses : list ((exn -> bool) * (exn -> M A))) :
  appends P body ->
  Forall (fun cl => forall e, appends P (cl.2 e)) clauses ->
  appends P (try_except body clauses).
Proof.
  intros Hb Hc s. destruct (Hb s) as (tr1 & E1 & F1).
  unfold try_except. destruct (body s) as [s1 [a|e|c]]; simpl in *.
  - by exists tr1.
  - destruct (appends_select clauses e Hc s1) as (tr2 & E2 & F2).
    exists (tr1 ++ tr2). rewrite E2, E1, app_assoc.
    split; [done | by apply Forall_app].
  - by exists tr1.
Qed.

Lemma appends_for_each {A : Type} (xs : list A) (body : A -> M unit) :
  (forall x, appends P (body x)) -> appends P (for_each xs body).
Proof.
  intros Hb. induction xs as [|x xs IH]; simpl.
  - apply appends_ret.
  - apply appends_bind; [apply Hb | intros _; apply IH].
Qed.

Lemma appends_post (E : env) (url : string) (h : headers_t) (body : json) :
  P (Post (Request url h body)) -> appends P (requests_post E url h body).
Proof.
  intros Hp s. exists [Post (Request url h body)].
  split; [done | by constructor].
Qed.

Lemma appends_raise_for_status (resp : response) : appends P (raise_for_status resp).
Proof.
  unfold raise_for_status.
  destruct (http_error resp); [apply appends_raise | apply appends_ret].
Qed.

Lemma appends_if {A : Type} (b : bool) (m1 m2 : M A) :
  appends P m1 -> appends P m2 -> appends P (if b then m1 else m2).
Proof. by destruct b. Qed.

Lemma appends_if_dec {A : Type} {Q : Prop} (d : Decision Q) (m1 m2 : M A) :
  appends P m1 -> appends P m2 -> appends P (if d then m1 else m2).
Proof. by destruct d. Qed.

End Appends.

Ltac appends_step :=
  first [ apply appends_bind; [|intros ?]
        | apply appends_try; [|repeat constructor; intros ?]
        | apply appends_for_each; intros ?
        | apply appends_if
        | apply appends_if_dec
        | apply appends_ret | apply appends_raise | apply appends_exit
        | apply appends_lift
        | apply appends_raise_for_status
        | apply appends_post
        | apply appends_emit ].

(** ** The credential loader and the start of the script *)

Lemma path_exists_Some (E : env) (path : string) (n : node) :
  env_fs E !! path = Some n -> path_exists E path = true.
Proof. intros H. unfold path_exists. rewrite H. by apply bool_decide_eq_true_2. Qed.

Lemma path_exists_None (E : env) (path : string) :
  env_fs E !! path = None -> path_exists E path = false.
Proof.
  intros H. unfold path_exists. rewrite H.
  apply bool_decide_eq_false_2. by intros [? ?].
Qed.

Lemma read_api_key_file (E : env) (content : string) (s : state) :
  env_fs E !! "api_key.key" = Some (File content) ->
  read_api_key E s
  = (State (trace s ++ [OpenRead "api_key.key"]) (sent s), Ok (PyStr.strip content)).
Proof.
  intros H. unfold read_api_key, open_read.
  rewrite (path_exists_Some _ _ _ H), H. reflexivity.
Qed.

Lemma read_api_key_missing (E : env) (s : state) :
  env_fs E !! "api_key.key" = None ->
  read_api_key E s
  = (State (trace s ++ [LogError "API key file 'api_key.key' not found."]) (sent s),
     Raise (Exn FileNotFoundError "API key file 'api_key.key' not found.")).
Proof.
  intros H. unfold read_api_key. rewrite (path_exists_None _ _ H). reflexivity.
Qed.

(** With a readable credential file the script reaches docopt with the
    stripped key in its headers and one effect behind it. *)
Lemma main_with_key (E : env) (content : string) (argv : docopt_result) :
  env_fs E !! "api_key.key" = Some (File content) ->
  main E argv initial
  = (arguments ← docopt argv ;
     match arguments with
     | Company query => company_branch E (make_headers (PyStr.strip content)) query
     | Create name email company =>
         create_branch E (make_headers (PyStr.strip content)) name email company
     | Upload data_type file_path =>
         upload_branch E (make_headers (PyStr.strip content)) data_type file_path
     | Enrich domains => enrich_branch E (make_headers (PyStr.strip content)) domains
     end) (State [OpenRead "api_key.key"] 0).
Proof.
  intros H. unfold main at 1. unfold mbind at 1, M_bind at 1, try_except.
  rewrite (read_api_key_file _ _ _ H). reflexivity.
Qed.

(** C1. If the credential file [api_key.key] does not exist, then whatever
    the command line, the process logs and prints the missing-credential
    error and exits with code 1; these three effects are all it does, so no
    HTTP request is issued and no handler runs. *)
Theorem missing_credential_is_fatal (E : env) (argv : docopt_result) :
  env_fs E !! "api_key.key" = None ->
  exit_code E argv = 1
  /\ effects E argv
     = [ LogError "API key file 'api_key.key' not found.";
         Print "Error: API key file 'api_key.key' not found.";
         LogError "Exiting due to missing API key file." ]
  /\ posts (effects E argv) = [].
Proof.
  intros H.
  assert (run E argv
          = (1, [ LogError "API key file 'api_key.key' not found.";
                  Print "Error: API key file 'api_key.key' not found.";
                  LogError "Exiting due to missing API key file." ])) as Hrun.
  { unfold run, main. unfold mbind at 1, M_bind at 1, try_except.
    rewrite (read_api_key_missing _ _ H). reflexivity. }
  unfold exit_code, effects. rewrite Hrun. done.
Qed.

Lemma missing_credential_is_fatal_witness :
  exit_code Sample.no_key (Parsed (Enrich ["example.com"])) = 1
  /\ effects Sample.no_key (Parsed (Enrich ["example.com"]))
     = [ LogError "API key file 'api_key.key' not found.";
         Print "Error: API key file 'api_key.key' not found.";
         LogError "Exiting due to missing API key file." ]
  /\ posts (effects Sample.no_key (Parsed (Enrich ["example.com"]))) = [].
Proof.
  apply (missing_credential_is_fatal Sample.no_key (Parsed (Enrich ["example.com"]))).
  vm_compute. reflexivity.
Defined.

(** ** The headers of every request *)

Lemma posts_carries (h : headers_t) (tr : list event) :
  Forall (carries h) tr -> Forall (fun r => req_headers r = h) (posts tr).
Proof.
  induction 1 as [|e tr He _ IH]; [constructor|].
  destruct e; simpl; auto.
Qed.

Lemma pretty_print_json_carries (h : headers_t) (data : json) :
  appends (carries h) (pretty_print_json data).
Proof.
  unfold pretty_print_json.
  destruct data; repeat appends_step; try done.
  all: match goal with x : (nat * json)%type |- _ => destruct x end;
    repeat appends_step; done.
Qed.

Lemma company_branch_carries (E : env) (h : headers_t) (query : string) :
  appends (carries h) (company_branch E h query).
Proof.
  unfold company_branch, main_clauses, response_json.
  repeat appends_step; try done.
  apply pretty_print_json_carries.
Qed.

Lemma create_branch_carries (E : env) (h : headers_t) (name email company : string) :
  appends (carries h) (create_branch E h name email company).
Proof.
  unfold create_branch, main_clauses, response_json.
  repeat appends_step; done.
Qed.

Lemma upload_branch_carries (E : env) (h : headers_t) (data_type file_path : string) :
  appends (carries h) (upload_branch E h data_type file_path).
Proof.
  unfold upload_branch, upload_data, upload_clauses, read_csv.
  repeat appends_step; done.
Qed.

Lemma enrich_branch_carries (E : env) (h : headers_t) (domains : list string) :
  appends (carries h) (enrich_branch E h domains).
Proof.
  unfold enrich_branch, enrich_domains, response_json.
  repeat appends_step; try done.
  apply pretty_print_json_carries.
Qed.

Lemma effects_run (E : env) (argv : docopt_result) :
  posts (effects E argv) = posts (trace (main E argv initial).1).
Proof.
  unfold effects, run. destruct (main E argv initial) as [s [[]|e|c]]; simpl; [done| |done].
  by rewrite posts_app, app_nil_r.
Qed.

(** Every request of a run carries the headers built from the stripped
    content of the credential file. *)
Lemma requests_carry_key (E : env) (content : string) (argv : docopt_result) :
  env_fs E !! "api_key.key" = Some (File content) ->
  Forall (fun r => req_headers r = make_headers (PyStr.strip content))
         (posts (effects E argv)).
Proof.
  intros H. rewrite effects_run, (main_with_key _ _ _ H).
  set (h := make_headers (PyStr.strip content)).
  assert (appends (carries h)
            (arguments ← docopt argv ;
             match arguments with
             | Company query => company_branch E h query
             | Create name email company => create_branch E h name email company
             | Upload data_type file_path => upload_branch E h data_type file_path
             | Enrich domains => enrich_branch E h domains
             end)) as Happ.
  { apply appends_bind.
    - destruct argv; simpl; repeat appends_step; done.
    - intros [q|n e c|t f|ds].
      + apply company_branch_carries.
      + apply create_branch_carries.
      + apply upload_branch_carries.
      + apply enrich_branch_carries. }
  destruct (Happ (State [OpenRead "api_key.key"] 0)) as (tr & -> & Htr).
  simpl. by apply posts_carries.
Qed.

Lemma make_headers_key (api_key : string) :
  make_headers api_key !! "X-Api-Key" = Some api_key.
Proof. unfold make_headers. by simplify_map_eq. Qed.

(** C10. Leading whitespace is stripped as well as trailing whitespace: when
    the credential file holds a key with whitespace (spaces, line feeds, ...)
    on either side, [read_api_key] returns the key itself and every request
    of the run carries it as its [X-Api-Key] header. *)
Theorem surrounding_whitespace_stripped (E : env) (argv : docopt_result)
    (w1 key w2 : string) :
  PyStr.all_space w1 = true -> PyStr.all_space w2 = true ->
  PyStr.first_nonspace key = true -> PyStr.last_nonspace key = true ->
  env_fs E !! "api_key.key" = Some (File (w1 +:+ key +:+ w2)) ->
  (forall s, (read_api_key E s).2 = Ok key)
  /\ Forall (fun r => req_headers r !! "X-Api-Key" = Some key) (posts (effects E argv)).
Proof.
  intros H1 H2 Hf Hl H.
  pose proof (strip_surrounded w1 key w2 H1 H2 Hf Hl) as Hstrip.
  split.
  - intros s. rewrite (read_api_key_file _ _ _ H). simpl. by rewrite Hstrip.
  - pose proof (requests_carry_key E _ argv H) as Hall.
    rewrite Hstrip in Hall.
    induction Hall as [|r rs Hr _ IH]; constructor; [|exact IH].
    rewrite Hr. apply make_headers_key.
Qed.

Lemma surrounding_whitespace_stripped_witness :
  (forall s, (read_api_key (Sample.world (" " +:+ "ABC123" +:+ " " +:+ PyStr.LF)
                              Sample.second_fails) s).2
             = Ok "ABC123")
  /\ Forall (fun r => req_headers r !! "X-Api-Key" = Some "ABC123")
       (posts (effects (Sample.world (" " +:+ "ABC123" +:+ " " +:+ PyStr.LF)
                          Sample.second_fails)
                 (Parsed (Enrich ["example.com"])))).
Proof.
  apply (surrounding_whitespace_stripped
           (Sample.world (" " +:+ "ABC123" +:+ " " +:+ PyStr.LF) Sample.second_fails)
           (Parsed (Enrich ["example.com"])) " " "ABC123" (" " +:+ PyStr.LF));
    vm_compute; reflexivity.
Defined.

(** Two credential files with whitespace around the key, run: the one
    request of the command carries the bare key. *)
Example key_header_sent :
  (fun r => req_headers r !! "X-Api-Key")
    <$> posts (effects (Sample.world ("ABC123" +:+ PyStr.LF) Sample.second_fails)
                 (Parsed (Company "acme")))
  = [Some "ABC123"]
  /\ (fun r => req_headers r !! "X-Api-Key")
       <$> posts (effects (Sample.world (PyStr.LF +:+ " ABC123 " +:+ PyStr.LF)
                             Sample.second_fails)
                    (Parsed (Create "Ada" "ada@example.com" "Acme")))
     = [Some "ABC123"].
Proof. split; vm_compute; reflexivity. Qed.

(** ** The JSON pretty-printer *)

Lemma for_each_items (items : list json) (start : nat) (s : state) :
  for_each (enumerate items start)
    (fun '(idx, item) =>
       print ("Item " +:+ pretty idx +:+ ":") ;; print (dumps item 4)) s
  = (State (trace s ++ concat (imap (fun i item => item_lines (start + i) item) items))
       (sent s), Ok tt).
Proof.
  revert start s. induction items as [|item items IH]; intros start s; simpl.
  - unfold_monad. rewrite app_nil_r. by destruct s.
  - unfold mbind at 1, M_bind at 1. unfold_monad. simpl.
    unfold mbind, M_bind in IH. rewrite IH. simpl.
    rewrite <- !app_assoc. simpl. rewrite Nat.add_0_r.
    assert (imap ((fun i x => item_lines (start + i) x) ∘ S) items
            = imap (fun i x => item_lines (S (start + i)) x) items) as ->.
    { apply imap_ext. intros i x _. simpl. by rewrite Nat.add_succ_r. }
    reflexivity.
Qed.

Lemma pretty_print_json_run (data : json) (s : state) :
  pretty_print_json data s = (State (trace s ++ pretty_printed data) (sent s), Ok tt).
Proof.
  unfold pretty_print_json, pretty_printed.
  destruct data as [| | | | |items|members];
    try (unfold_monad; simpl; by rewrite <- app_assoc).
  - by rewrite (for_each_items items 1 s).
  - rewrite (for_each_items [JObj members] 1 s). reflexivity.
Qed.

Lemma posts_concat_imap {A : Type} (f : nat -> A -> list event) (l : list A) :
  (forall i x, posts (f i x) = []) -> posts (concat (imap f l)) = [].
Proof.
  revert f. induction l as [|x l IH]; intros f Hf; [done|].
  simpl. rewrite posts_app, Hf. apply IH. intros i y. apply Hf.
Qed.

Lemma pretty_printed_posts (data : json) : posts (pretty_printed data) = [].
Proof.
  destruct data as [| | | | |items|members]; try done.
  simpl. apply posts_concat_imap. done.
Qed.

(** C8. The pretty-printer, given a single object, prints it as the one item
    numbered 1, as [json.dumps] with indentation 4 writes it; given a list,
    prints its elements in order, numbered from 1, each written the same
    way; given any other value, logs and prints an error message and prints
    no item. It never raises and adds nothing else to the trace. *)
Theorem pretty_print_json_shapes (data : json) (s : state) :
  pretty_print_json data s
  = (State
       (trace s ++
        match data with
        | JObj _ => [Print "Item 1:"; Print (dumps data 4)]
        | JArr items =>
            concat (imap (fun i item =>
                            [Print ("Item " +:+ pretty (S i) +:+ ":");
                             Print (dumps item 4)]) items)
        | _ => [LogError "Unexpected data format. Expected a list or dict.";
                Print "Unexpected data format."]
        end)
       (sent s), Ok tt).
Proof.
  unfold pretty_print_json.
  destruct data as [| |n|repr|str|items|members].
  - unfold_monad. simpl. by rewrite <- app_assoc.
  - unfold_monad. simpl. by rewrite <- app_assoc.
  - unfold_monad. simpl. by rewrite <- app_assoc.
  - unfold_monad. simpl. by rewrite <- app_assoc.
  - unfold_monad. simpl. by rewrite <- app_assoc.
  - rewrite (for_each_items items 1 s). reflexivity.
  - rewrite (for_each_items [JObj members] 1 s). reflexivity.
Qed.

(** A list of two items, printed. *)
Example pretty_print_json_list :
  printed (trace (pretty_print_json
                    (JArr [JObj [("name", JStr "Acme"); ("tags", JArr [JInt 1; JNull])];
                           JObj []]) initial).1)
  = [ "Item 1:";
      "{" +:+ PyStr.LF
      +:+ "    " +:+ DQ +:+ "name" +:+ DQ +:+ ": " +:+ DQ +:+ "Acme" +:+ DQ +:+ "," +:+ PyStr.LF
      +:+ "    " +:+ DQ +:+ "tags" +:+ DQ +:+ ": [" +:+ PyStr.LF
      +:+ "        1," +:+ PyStr.LF
      +:+ "        null" +:+ PyStr.LF
      +:+ "    ]" +:+ PyStr.LF
      +:+ "}";
      "Item 2:";
      "{}" ].
Proof. vm_compute. reflexivity. Qed.

(** ** The upload handler *)

Lemma upload_row (E : env) (url : string) (h : headers_t) (r : row)
    (tr : list event) (k : nat) :
  try_except
    (response ← requests_post E url h (JObj r) ;
     raise_for_status response ;;
     print ("Successfully uploaded: " +:+ env_str_row E r))
    upload_clauses (State tr k)
  = (State (tr ++ Post (upload_request url h r)
               :: match call_error (env_post E k (upload_request url h r)) with
                  | Some e => [LogError (error_report e); Print (error_report e)]
                  | None => [Print ("Successfully uploaded: " +:+ env_str_row E r)]
                  end) (S k), Ok tt).
Proof.
  unfold try_except, requests_post, raise_for_status, call_error,
    upload_request, upload_clauses, error_report, is_Exception.
  unfold_monad. cbn [trace sent].
  destruct (env_post E k (Request url h (JObj r))) as [e|resp]; cbn [select_handler].
  - destruct (is_HTTPError e); cbn [trace sent]; by rewrite <- !app_assoc.
  - destruct (http_error resp) as [e|]; cbn [select_handler trace sent].
    + destruct (is_HTTPError e); cbn [trace sent]; by rewrite <- !app_assoc.
    + by rewrite <- !app_assoc.
Qed.

Lemma upload_loop (E : env) (url : string) (h : headers_t) (rows : list row)
    (tr : list event) (k : nat) :
  for_each rows (fun row =>
    try_except
      (response ← requests_post E url h (JObj row) ;
       raise_for_status response ;;
       print ("Successfully uploaded: " +:+ env_str_row E row))
      upload_clauses) (State tr k)
  = (State (tr ++ upload_events E url h k rows) (k + length rows), Ok tt).
Proof.
  revert tr k. induction rows as [|r rows IH]; intros tr k.
  - simpl. unfold_monad. by rewrite app_nil_r, Nat.add_0_r.
  - cbn [for_each upload_events length].
    unfold mbind at 1, M_bind at 1.
    rewrite upload_row, IH, <- app_assoc, Nat.add_succ_r. reflexivity.
Qed.

Lemma upload_events_posts (E : env) (url : string) (h : headers_t) (k : nat)
    (rows : list row) :
  posts (upload_events E url h k rows) = upload_request url h <$> rows.
Proof.
  revert k. induction rows as [|r rows IH]; intros k; [done|].
  simpl. rewrite posts_app, IH.
  by destruct (call_error _).
Qed.

Lemma upload_events_printed (E : env) (url : string) (h : headers_t) (k : nat)
    (rows : list row) :
  printed (upload_events E url h k rows)
  = imap (fun i r => upload_line E url h (k + i) r) rows.
Proof.
  revert k. induction rows as [|r rows IH]; intros k; [done|].
  simpl. rewrite printed_app, IH. unfold upload_line at 2. rewrite Nat.add_0_r.
  assert (imap ((fun i x => upload_line E url h (k + i) x) ∘ S) rows
          = imap (fun i x => upload_line E url h (S k + i) x) rows) as ->.
  { apply imap_ext. intros i x _. simpl. by rewrite Nat.add_succ_r. }
  by destruct (call_error _).
Qed.

Lemma upload_events_logged (E : env) (url : string) (h : headers_t) (k : nat)
    (rows : list row) (i : nat) (r : row) (e : exn) :
  rows !! i = Some r ->
  call_error (env_post E (k + i) (upload_request url h r)) = Some e ->
  error_report e ∈ logged (upload_events E url h k rows).
Proof.
  revert k i. induction rows as [|r' rows IH]; intros k i Hi He; [done|].
  simpl. rewrite logged_app. destruct i as [|i]; simpl in Hi.
  - injection Hi as ->. rewrite Nat.add_0_r in He. rewrite He. simpl.
    apply list_elem_of_here.
  - apply elem_of_app. right. apply (IH (S k) i Hi).
    by rewrite Nat.add_succ_r in He.
Qed.

Lemma upload_data_run (E : env) (h : headers_t) (file_path data_type : string) (s : state) :
  upload_data E h file_path data_type s
  = match env_fs E !! file_path with
    | None =>
        (State (trace s ++ [LogError ("CSV file '" +:+ file_path +:+ "' not found.")])
           (sent s),
         Raise (Exn FileNotFoundError ("CSV file '" +:+ file_path +:+ "' not found.")))
    | Some _ =>
        match env_read_csv E file_path with
        | inl e => (State (trace s ++ [ReadCsv file_path]) (sent s), Raise e)
        | inr rows =>
            match upload_url data_type with
            | None =>
                (State (trace s ++ [ReadCsv file_path;
                                    LogError ("Unsupported data type: " +:+ data_type)])
                   (sent s),
                 Raise (Exn ValueError ("Unsupported data type: " +:+ data_type)))
            | Some url =>
                (State (trace s ++ ReadCsv file_path
                                   :: upload_events E url h (sent s) rows)
                   (sent s + length rows), Ok tt)
            end
        end
    end.
Proof.
  unfold upload_data. rewrite bind_run.
  destruct (env_fs E !! file_path) as [n|] eqn:Hf.
  - rewrite (path_exists_Some _ _ _ Hf). cbn [negb].
    rewrite ret_run. cbv iota. unfold read_csv.
    rewrite !bind_run, emit_run.
    destruct (env_read_csv E file_path) as [e|rows]; cbn [lift].
    + rewrite raise_run. reflexivity.
    + rewrite ret_run. unfold upload_url.
      destruct (decide (data_type = "contact")); cbv beta iota.
      * rewrite bind_run, ret_run, upload_loop. cbn [trace sent].
        rewrite <- app_assoc. reflexivity.
      * destruct (decide (data_type = "company")); cbv beta iota.
        -- rewrite bind_run, ret_run, upload_loop. cbn [trace sent].
           rewrite <- app_assoc. reflexivity.
        -- unfold logger_error. rewrite !bind_run, emit_run, raise_run.
           cbn [trace sent]. rewrite <- app_assoc. reflexivity.
  - rewrite (path_exists_None _ _ Hf). cbn [negb].
    unfold logger_error. rewrite bind_run, emit_run, raise_run. reflexivity.
Qed.

Section UploadRuns.
Context (E : env) (content : string).
Hypothesis Hkey : env_fs E !! "api_key.key" = Some (File content).

Lemma run_upload (data_type file_path : string) :
  run E (Parsed (Upload data_type file_path))
  = match upload_data E (make_headers (PyStr.strip content)) file_path data_type
            (State [OpenRead "api_key.key"] 0) with
    | (s, Ok _) => (0, trace s)
    | (s, Raise e) =>
        if is_FileNotFoundError_or_ValueError e
        then (0, trace s ++ [Print ("Error: " +:+ exn_msg e);
                             LogError ("Error: " +:+ exn_msg e)])
        else (1, trace s ++ [Traceback e])
    | (s, Exit code) => (code, trace s)
    end.
Proof.
  unfold run. rewrite (main_with_key _ _ _ Hkey).
  rewrite bind_run. cbn [docopt]. rewrite ret_run. cbv beta iota.
  unfold upload_branch. rewrite try_run.
  destruct (upload_data _ _ _ _ _) as [s [[]|e|c]]; [done| |done].
  cbn [select_handler].
  destruct (is_FileNotFoundError_or_ValueError e); [|by rewrite raise_run].
  unfold print, logger_error. rewrite bind_run, !emit_run. cbn [trace sent].
  by rewrite <- app_assoc.
Qed.

Lemma run_upload_missing (data_type file_path : string) :
  env_fs E !! file_path = None ->
  run E (Parsed (Upload data_type file_path))
  = (0, [ OpenRead "api_key.key";
          LogError ("CSV file '" +:+ file_path +:+ "' not found.");
          Print ("Error: CSV file '" +:+ file_path +:+ "' not found.");
          LogError ("Error: CSV file '" +:+ file_path +:+ "' not found.") ]).
Proof. intros Hf. by rewrite run_upload, upload_data_run, Hf. Qed.

Lemma run_upload_unreadable (data_type file_path : string) (n : node) (e : exn) :
  env_fs E !! file_path = Some n ->
  env_read_csv E file_path = inl e ->
  run E (Parsed (Upload data_type file_path))
  = if is_FileNotFoundError_or_ValueError e
    then (0, [ OpenRead "api_key.key"; ReadCsv file_path;
               Print ("Error: " +:+ exn_msg e); LogError ("Error: " +:+ exn_msg e) ])
    else (1, [ OpenRead "api_key.key"; ReadCsv file_path; Traceback e ]).
Proof. intros Hf Hread. by rewrite run_upload, upload_data_run, Hf, Hread. Qed.

Lemma upload_url_None (data_type : string) :
  data_type <> "contact" -> data_type <> "company" -> upload_url data_type = None.
Proof. intros H1 H2. unfold upload_url. by rewrite !decide_False. Qed.

Lemma run_upload_unsupported (data_type file_path : string) (n : node) (rows : list row) :
  env_fs E !! file_path = Some n ->
  env_read_csv E file_path = inr rows ->
  data_type <> "contact" -> data_type <> "company" ->
  run E (Parsed (Upload data_type file_path))
  = (0, [ OpenRead "api_key.key"; ReadCsv file_path;
          LogError ("Unsupported data type: " +:+ data_type);
          Print ("Error: Unsupported data type: " +:+ data_type);
          LogError ("Error: Unsupported data type: " +:+ data_type) ]).
Proof.
  intros Hf Hread H1 H2.
  by rewrite run_upload, upload_data_run, Hf, Hread, upload_url_None.
Qed.

Lemma run_upload_rows (data_type file_path url : string) (n : node) (rows : list row) :
  env_fs E !! file_path = Some n ->
  env_read_csv E file_path = inr rows ->
  upload_url data_type = Some url ->
  run E (Parsed (Upload data_type file_path))
  = (0, [ OpenRead "api_key.key"; ReadCsv file_path ]
        ++ upload_events E url (make_headers (PyStr.strip content)) 0 rows).
Proof. intros Hf Hread Hurl. by rewrite run_upload, upload_data_run, Hf, Hread, Hurl. Qed.

End UploadRuns.

(** C2. For an existing upload file that [pd.read_csv] loads as the rows
    [rows], and type [contact] (or [company]), the upload handler issues
    exactly one POST request per row, in file order, to the endpoint of the
    type, whatever the service answers: the process exits with code 0, and
    for every row whose call fails (a transport error or an HTTP error
    status) the report of the failure is the line printed for that row and
    is logged, while the requests of the other rows are issued all the
    same. *)
Theorem upload_posts_every_row (E : env) (content data_type file_path url : string)
    (n : node) (rows : list row) :
  env_fs E !! "api_key.key" = Some (File content) ->
  env_fs E !! file_path = Some n ->
  env_read_csv E file_path = inr rows ->
  (data_type = "contact" /\ url = "https://api.apollo.io/v1/contacts"
   \/ data_type = "company" /\ url = "https://api.apollo.io/v1/accounts") ->
  exit_code E (Parsed (Upload data_type file_path)) = 0
  /\ posts (effects E (Parsed (Upload data_type file_path)))
     = upload_request url (make_headers (PyStr.strip content)) <$> rows
  /\ length (posts (effects E (Parsed (Upload data_type file_path)))) = length rows
  /\ (forall i r e,
        rows !! i = Some r ->
        call_error (env_post E i (upload_request url (make_headers (PyStr.strip content)) r))
        = Some e ->
        printed (effects E (Parsed (Upload data_type file_path))) !! i
        = Some (error_report e)
        /\ error_report e ∈ logged (effects E (Parsed (Upload data_type file_path)))).
Proof.
  intros Hkey Hf Hread Htype.
  assert (upload_url data_type = Some url) as Hurl.
  { unfold upload_url. destruct Htype as [[-> ->]|[-> ->]]; reflexivity. }
  unfold exit_code, effects.
  rewrite (run_upload_rows E content Hkey data_type file_path url n rows Hf Hread Hurl).
  cbn [fst snd]. rewrite posts_app, printed_app, logged_app.
  rewrite upload_events_posts, upload_events_printed. cbn [posts printed logged app].
  split; [done|]. split; [done|]. split; [by rewrite length_fmap|].
  intros i r e Hi He. split.
  - rewrite list_lookup_imap, Hi. simpl. unfold upload_line. by rewrite He.
  - by apply (upload_events_logged E url _ 0 rows i r e).
Qed.

Lemma upload_posts_every_row_witness :
  exit_code (Sample.world "ABC123" Sample.second_fails) (Parsed (Upload "contact" "rows.csv")) = 0
  /\ posts (effects (Sample.world "ABC123" Sample.second_fails)
              (Parsed (Upload "contact" "rows.csv")))
     = upload_request "https://api.apollo.io/v1/contacts"
         (make_headers (PyStr.strip "ABC123")) <$> Sample.rows3
  /\ length (posts (effects (Sample.world "ABC123" Sample.second_fails)
                      (Parsed (Upload "contact" "rows.csv")))) = length Sample.rows3
  /\ (forall i r e,
        Sample.rows3 !! i = Some r ->
        call_error (env_post (Sample.world "ABC123" Sample.second_fails) i
                      (upload_request "https://api.apollo.io/v1/contacts"
                         (make_headers (PyStr.strip "ABC123")) r))
        = Some e ->
        printed (effects (Sample.world "ABC123" Sample.second_fails)
                   (Parsed (Upload "contact" "rows.csv"))) !! i
        = Some (error_report e)
        /\ error_report e ∈ logged (effects (Sample.world "ABC123" Sample.second_fails)
                                       (Parsed (Upload "contact" "rows.csv")))).
Proof.
  apply (upload_posts_every_row (Sample.world "ABC123" Sample.second_fails)
           "ABC123" "contact" "rows.csv" "https://api.apollo.io/v1/contacts"
           (File Sample.table_text) Sample.rows3).
  - vm_compute. reflexivity.
  - vm_compute. reflexivity.
  - vm_compute. reflexivity.
  - left. split; reflexivity.
Defined.

(** The three-row table with a failure on its second row, run: three
    requests, one line printed per row, the failure logged. *)
Example upload_three_rows :
  let tr := effects (Sample.world "ABC123" Sample.second_fails)
              (Parsed (Upload "contact" "rows.csv")) in
  req_json <$> posts tr = JObj <$> Sample.rows3
  /\ printed tr
     = [ "Successfully uploaded: <row>";
         "HTTP error occurred: 500 Server Error: Internal Server Error for url: https://api.apollo.io/";
         "Successfully uploaded: <row>" ]
  /\ logged tr
     = [ "HTTP error occurred: 500 Server Error: Internal Server Error for url: https://api.apollo.io/" ].
Proof. repeat split; vm_compute; reflexivity. Qed.

(** C5, as stated, fails: [upload invoice missing.csv] with no file
    [missing.csv] reports that the file was not found and never mentions the
    type. *)
Lemma unsupported_type_unreported :
  effects (Sample.world "ABC123" Sample.second_fails) (Parsed (Upload "invoice" "missing.csv"))
  = [ OpenRead "api_key.key";
      LogError "CSV file 'missing.csv' not found.";
      Print "Error: CSV file 'missing.csv' not found.";
      LogError "Error: CSV file 'missing.csv' not found." ]
  /\ ~ reports_unsupported_type
         (effects (Sample.world "ABC123" Sample.second_fails)
            (Parsed (Upload "invoice" "missing.csv"))) "invoice".
Proof.
  assert (effects (Sample.world "ABC123" Sample.second_fails)
            (Parsed (Upload "invoice" "missing.csv"))
          = [ OpenRead "api_key.key";
              LogError "CSV file 'missing.csv' not found.";
              Print "Error: CSV file 'missing.csv' not found.";
              LogError "Error: CSV file 'missing.csv' not found." ]) as ->.
  { vm_compute. reflexivity. }
  split; [done|]. intros [H _].
  apply list_elem_of_In in H. simpl in H.
  repeat (destruct H as [H|H]; [discriminate H|]). done.
Qed.

(** C5, amended. Running [upload] with a type that is neither [contact] nor
    [company] issues no HTTP request, whatever the file; when the file
    exists and [pd.read_csv] loads it, the run reports the unsupported data
    type (logged by the handler, then printed and logged by the script) and
    exits with code 0. *)
Theorem unsupported_type_sends_nothing (E : env) (content data_type file_path : string) :
  env_fs E !! "api_key.key" = Some (File content) ->
  data_type <> "contact" -> data_type <> "company" ->
  posts (effects E (Parsed (Upload data_type file_path))) = []
  /\ (forall n rows,
        env_fs E !! file_path = Some n ->
        env_read_csv E file_path = inr rows ->
        run E (Parsed (Upload data_type file_path))
        = (0, [ OpenRead "api_key.key"; ReadCsv file_path;
                LogError ("Unsupported data type: " +:+ data_type);
                Print ("Error: Unsupported data type: " +:+ data_type);
                LogError ("Error: Unsupported data type: " +:+ data_type) ])
        /\ reports_unsupported_type
             (effects E (Parsed (Upload data_type file_path))) data_type).
Proof.
  intros Hkey H1 H2. split.
  - unfold effects.
    destruct (env_fs E !! file_path) as [n|] eqn:Hf.
    + destruct (env_read_csv E file_path) as [e|rows] eqn:Hread.
      * rewrite (run_upload_unreadable E content Hkey data_type file_path n e Hf Hread).
        by destruct (is_FileNotFoundError_or_ValueError e).
      * by rewrite (run_upload_unsupported E content Hkey data_type file_path n rows).
    + by rewrite (run_upload_missing E content Hkey data_type file_path Hf).
  - intros n rows Hf Hread. unfold effects.
    rewrite (run_upload_unsupported E content Hkey data_type file_path n rows) by done.
    split; [done|]. unfold reports_unsupported_type. cbn [snd].
    split; apply list_elem_of_In; simpl; auto.
Qed.

Lemma unsupported_type_sends_nothing_witness :
  posts (effects (Sample.world "ABC123" Sample.second_fails)
           (Parsed (Upload "invoice" "rows.csv"))) = []
  /\ run (Sample.world "ABC123" Sample.second_fails) (Parsed (Upload "invoice" "rows.csv"))
     = (0, [ OpenRead "api_key.key"; ReadCsv "rows.csv";
             LogError ("Unsupported data type: " +:+ "invoice");
             Print ("Error: Unsupported data type: " +:+ "invoice");
             LogError ("Error: Unsupported data type: " +:+ "invoice") ])
  /\ reports_unsupported_type
       (effects (Sample.world "ABC123" Sample.second_fails)
          (Parsed (Upload "invoice" "rows.csv"))) "invoice".
Proof.
  destruct (unsupported_type_sends_nothing (Sample.world "ABC123" Sample.second_fails)
              "ABC123" "invoice" "rows.csv") as [Hposts Hrun].
  - vm_compute. reflexivity.
  - discriminate.
  - discriminate.
  - split; [exact Hposts|].
    apply (Hrun (File Sample.table_text) Sample.rows3); vm_compute; reflexivity.
Defined.

(** C9. In the upload handler the file-existence check comes first, then the
    table is loaded, and only then the type is checked: with an unsupported
    type, a file that does not exist is reported as not found and the type
    is not mentioned; a file that exists is read with [pd.read_csv] before
    anything about the type is reported, and when the read succeeds the
    type error follows it. *)
Theorem upload_checks_in_order (E : env) (content data_type file_path : string) :
  env_fs E !! "api_key.key" = Some (File content) ->
  data_type <> "contact" -> data_type <> "company" ->
  match env_fs E !! file_path with
  | None =>
      run E (Parsed (Upload data_type file_path))
      = (0, [ OpenRead "api_key.key";
              LogError ("CSV file '" +:+ file_path +:+ "' not found.");
              Print ("Error: CSV file '" +:+ file_path +:+ "' not found.");
              LogError ("Error: CSV file '" +:+ file_path +:+ "' not found.") ])
      /\ ~ reports_unsupported_type
            (effects E (Parsed (Upload data_type file_path))) data_type
  | Some _ =>
      exists rest,
        effects E (Parsed (Upload data_type file_path))
        = OpenRead "api_key.key" :: ReadCsv file_path :: rest
        /\ csv_reads rest = []
        /\ match env_read_csv E file_path with
           | inr _ =>
               rest = [ LogError ("Unsupported data type: " +:+ data_type);
                        Print ("Error: Unsupported data type: " +:+ data_type);
                        LogError ("Error: Unsupported data type: " +:+ data_type) ]
           | inl e =>
               rest = if is_FileNotFoundError_or_ValueError e
                      then [ Print ("Error: " +:+ exn_msg e);
                             LogError ("Error: " +:+ exn_msg e) ]
                      else [ Traceback e ]
           end
  end.
Proof.
  intros Hkey H1 H2. destruct (env_fs E !! file_path) as [n|] eqn:Hf.
  - unfold effects.
    destruct (env_read_csv E file_path) as [e|rows] eqn:Hread.
    + rewrite (run_upload_unreadable E content Hkey data_type file_path n e Hf Hread).
      destruct (is_FileNotFoundError_or_ValueError e); eexists; (split; [reflexivity|]);
        split; done.
    + rewrite (run_upload_unsupported E content Hkey data_type file_path n rows) by done.
      eexists. split; [reflexivity|]. split; done.
  - unfold effects.
    rewrite (run_upload_missing E content Hkey data_type file_path Hf).
    split; [done|]. intros [H _]. cbn [snd] in H.
    apply list_elem_of_In in H. simpl in H.
    destruct H as [H|[H|[H|[H|[]]]]]; discriminate H.
Qed.

Lemma upload_checks_in_order_witness :
  (run (Sample.world "ABC123" Sample.second_fails) (Parsed (Upload "invoice" "missing.csv"))
   = (0, [ OpenRead "api_key.key";
           LogError ("CSV file '" +:+ "missing.csv" +:+ "' not found.");
           Print ("Error: CSV file '" +:+ "missing.csv" +:+ "' not found.");
           LogError ("Error: CSV file '" +:+ "missing.csv" +:+ "' not found.") ])
   /\ ~ reports_unsupported_type
          (effects (Sample.world "ABC123" Sample.second_fails)
             (Parsed (Upload "invoice" "missing.csv"))) "invoice")
  /\ (exists rest,
        effects (Sample.world "ABC123" Sample.second_fails)
          (Parsed (Upload "invoice" "rows.csv"))
        = OpenRead "api_key.key" :: ReadCsv "rows.csv" :: rest
        /\ csv_reads rest = []
        /\ rest = [ LogError ("Unsupported data type: " +:+ "invoice");
                    Print ("Error: Unsupported data type: " +:+ "invoice");
                    LogError ("Error: Unsupported data type: " +:+ "invoice") ]).
Proof.
  split.
  - apply (upload_checks_in_order (Sample.world "ABC123" Sample.second_fails)
             "ABC123" "invoice" "missing.csv").
    + vm_compute. reflexivity.
    + discriminate.
    + discriminate.
  - apply (upload_checks_in_order (Sample.world "ABC123" Sample.second_fails)
             "ABC123" "invoice" "rows.csv").
    + vm_compute. reflexivity.
    + discriminate.
    + discriminate.
Defined.

(** Both orders of C9, run: the missing file with an unsupported type, and
    the existing table with an unsupported type. *)
Example upload_checks_run :
  run (Sample.world "ABC123" Sample.second_fails) (Parsed (Upload "invoice" "missing.csv"))
  = (0, [ OpenRead "api_key.key";
          LogError "CSV file 'missing.csv' not found.";
          Print "Error: CSV file 'missing.csv' not found.";
          LogError "Error: CSV file 'missing.csv' not found." ])
  /\ run (Sample.world "ABC123" Sample.second_fails) (Parsed (Upload "invoice" "rows.csv"))
     = (0, [ OpenRead "api_key.key"; ReadCsv "rows.csv";
             LogError "Unsupported data type: invoice";
             Print "Error: Unsupported data type: invoice";
             LogError "Error: Unsupported data type: invoice" ]).
Proof. split; vm_compute; reflexivity. Qed.

(** ** The handlers of one request *)

Lemma main_clauses_run (e : exn) (s : state) :
  select_handler main_clauses e s
  = (State (trace s ++ report_events e) (sent s), Ok tt).
Proof.
  unfold main_clauses, report_events, error_report, is_Exception. cbn [select_handler].
  destruct (is_HTTPError e); unfold print, logger_error;
    rewrite bind_run, !emit_run; cbn [trace sent]; by rewrite <- app_assoc.
Qed.

Lemma company_branch_run (E : env) (h : headers_t) (query : string) (s : state) :
  company_branch E h query s
  = (State (trace s ++ Post (company_request h query)
                       :: company_events (env_post E (sent s) (company_request h query)))
       (S (sent s)), Ok tt).
Proof.
  unfold company_branch, company_request, company_events. cbv zeta.
  change (BASE_URL +:+ "/accounts") with "https://api.apollo.io/v1/accounts".
  rewrite try_run, bind_run, post_run.
  destruct (env_post E (sent s) _) as [e|resp].
  - rewrite main_clauses_run. cbn [trace sent]. by rewrite <- app_assoc.
  - rewrite bind_run, raise_for_status_run.
    destruct (http_error resp) as [e|].
    + rewrite main_clauses_run. cbn [trace sent]. by rewrite <- app_assoc.
    + unfold response_json. rewrite bind_run, lift_run.
      destruct (resp_json resp) as [e|data].
      * rewrite main_clauses_run. cbn [trace sent]. by rewrite <- app_assoc.
      * rewrite pretty_print_json_run. cbn [trace sent]. by rewrite <- app_assoc.
Qed.

Lemma create_branch_run (E : env) (h : headers_t) (name email company : string)
    (s : state) :
  create_branch E h name email company s
  = (State (trace s ++ Post (create_request h name email company)
                       :: create_events E (env_post E (sent s)
                                             (create_request h name email company)))
       (S (sent s)), Ok tt).
Proof.
  unfold create_branch, create_request, create_events. cbv zeta.
  change (BASE_URL +:+ "/contacts") with "https://api.apollo.io/v1/contacts".
  rewrite try_run, bind_run, post_run.
  destruct (env_post E (sent s) _) as [e|resp].
  - rewrite main_clauses_run. cbn [trace sent]. by rewrite <- app_assoc.
  - rewrite bind_run, raise_for_status_run.
    destruct (http_error resp) as [e|].
    + rewrite main_clauses_run. cbn [trace sent]. by rewrite <- app_assoc.
    + cbv beta iota. destruct (decide (status_code resp = 201)) as [H201|H201].
      * unfold response_json. rewrite bind_run, lift_run.
        destruct (resp_json resp) as [e|created].
        -- rewrite main_clauses_run. cbn [trace sent]. by rewrite <- app_assoc.
        -- unfold print. rewrite emit_run. cbn [trace sent]. by rewrite <- app_assoc.
      * destruct (decide (status_code resp = 200)) as [H200|H200].
        -- unfold print. rewrite emit_run. cbn [trace sent]. by rewrite <- app_assoc.
        -- rewrite ret_run. reflexivity.
Qed.

Lemma enrich_clause_run (e : exn) (s : state) :
  select_handler
    [ (is_Exception, fun e =>
         print ("Error: " +:+ exn_msg e) ;; logger_error ("Error: " +:+ exn_msg e)) ] e s
  = (State (trace s ++ enrich_report_events e) (sent s), Ok tt).
Proof.
  unfold is_Exception, enrich_report_events. cbn [select_handler].
  unfold print, logger_error. rewrite bind_run, !emit_run. cbn [trace sent].
  by rewrite <- app_assoc.
Qed.

Lemma enrich_branch_run (E : env) (h : headers_t) (domains : list string) (s : state) :
  enrich_branch E h domains s
  = (State (trace s ++ Post (enrich_request h domains)
                       :: enrich_events (env_post E (sent s) (enrich_request h domains)))
       (S (sent s)), Ok tt).
Proof.
  unfold enrich_branch, enrich_domains, enrich_request, enrich_events. cbv zeta.
  rewrite try_run, bind_run, post_run.
  destruct (env_post E (sent s) _) as [e|resp].
  - rewrite enrich_clause_run. cbn [trace sent]. by rewrite <- app_assoc.
  - cbv beta iota. destruct (decide (status_code resp = 200)) as [H200|H200].
    + unfold response_json. rewrite bind_run, lift_run.
      destruct (resp_json resp) as [e|data].
      * rewrite enrich_clause_run. cbn [trace sent]. by rewrite <- app_assoc.
      * rewrite pretty_print_json_run. cbn [trace sent]. by rewrite <- app_assoc.
    + unfold print. rewrite bind_run, !emit_run. cbn [trace sent].
      by rewrite <- !app_assoc.
Qed.

Lemma company_events_posts (o : exn + response) : posts (company_events o) = [].
Proof.
  destruct o as [e|resp]; [done|]. simpl.
  destruct (http_error resp); [done|].
  destruct (resp_json resp); [done|]. apply pretty_printed_posts.
Qed.

Lemma create_events_posts (E : env) (o : exn + response) : posts (create_events E o) = [].
Proof.
  destruct o as [e|resp]; [done|]. simpl.
  destruct (http_error resp); [done|].
  destruct (decide _); [by destruct (resp_json resp)|].
  by destruct (decide _).
Qed.

Lemma enrich_events_posts (o : exn + response) : posts (enrich_events o) = [].
Proof.
  destruct o as [e|resp]; [done|]. simpl.
  destruct (decide _); [|done].
  destruct (resp_json resp); [done|]. apply pretty_printed_posts.
Qed.

Lemma http_error_status (resp : response) (e : exn) :
  http_error resp = Some e -> 400 <= status_code resp < 600.
Proof.
  unfold http_error.
  destruct (400 <=? status_code resp) eqn:H1, (status_code resp <? 500) eqn:H2,
    (500 <=? status_code resp) eqn:H3, (status_code resp <? 600) eqn:H4;
    simpl; intros H; try discriminate H; lia.
Qed.

Lemma http_error_success (resp : response) :
  status_code resp < 400 -> http_error resp = None.
Proof.
  intros H. destruct (http_error resp) as [e|] eqn:He; [|done].
  apply http_error_status in He. lia.
Qed.

Section Runs.
Context (E : env) (content : string).
Hypothesis Hkey : env_fs E !! "api_key.key" = Some (File content).
Let h : headers_t := make_headers (PyStr.strip content).

Lemma run_company (query : string) :
  run E (Parsed (Company query))
  = (0, OpenRead "api_key.key" :: Post (company_request h query)
        :: company_events (env_post E 0 (company_request h query))).
Proof.
  unfold run. rewrite (main_with_key _ _ _ Hkey).
  rewrite bind_run. cbn [docopt]. rewrite ret_run. cbv beta iota.
  by rewrite company_branch_run.
Qed.

Lemma run_create (name email company : string) :
  run E (Parsed (Create name email company))
  = (0, OpenRead "api_key.key" :: Post (create_request h name email company)
        :: create_events E (env_post E 0 (create_request h name email company))).
Proof.
  unfold run. rewrite (main_with_key _ _ _ Hkey).
  rewrite bind_run. cbn [docopt]. rewrite ret_run. cbv beta iota.
  by rewrite create_branch_run.
Qed.

Lemma run_enrich (domains : list string) :
  run E (Parsed (Enrich domains))
  = (0, OpenRead "api_key.key" :: Post (enrich_request h domains)
        :: enrich_events (env_post E 0 (enrich_request h domains))).
Proof.
  unfold run. rewrite (main_with_key _ _ _ Hkey).
  rewrite bind_run. cbn [docopt]. rewrite ret_run. cbv beta iota.
  by rewrite enrich_branch_run.
Qed.

End Runs.

(** C3. For every list of domain arguments the enrich handler issues exactly
    one POST request, to the bulk-enrichment endpoint, and its JSON body is
    the object whose single field [domains] holds the full argument list in
    order; this is so whatever the service answers. *)
Theorem enrich_sends_one_request (E : env) (content : string) (domains : list string) :
  env_fs E !! "api_key.key" = Some (File content) ->
  posts (effects E (Parsed (Enrich domains)))
  = [ Request "https://api.apollo.io/api/v1/organizations/bulk_enrich"
        (make_headers (PyStr.strip content))
        (JObj [("domains", JArr (JStr <$> domains))]) ].
Proof.
  intros Hkey. unfold effects. rewrite (run_enrich E content Hkey).
  cbn [snd posts]. by rewrite enrich_events_posts.
Qed.

Lemma enrich_sends_one_request_witness :
  posts (effects (Sample.world "ABC123" Sample.second_fails)
           (Parsed (Enrich ["example.com"; "other.org"])))
  = [ Request "https://api.apollo.io/api/v1/organizations/bulk_enrich"
        (make_headers (PyStr.strip "ABC123"))
        (JObj [("domains", JArr (JStr <$> ["example.com"; "other.org"]))]) ].
Proof.
  apply (enrich_sends_one_request (Sample.world "ABC123" Sample.second_fails) "ABC123"
           ["example.com"; "other.org"]).
  vm_compute. reflexivity.
Defined.

(** The body of [enrich example.com other.org], whether the service accepts
    the request or not. *)
Example enrich_body :
  req_json <$> posts (effects (Sample.world "ABC123" Sample.second_fails)
                        (Parsed (Enrich ["example.com"; "other.org"])))
  = [ JObj [("domains", JArr [JStr "example.com"; JStr "other.org"])] ]
  /\ req_json <$> posts (effects
                           (Sample.world "ABC123"
                              (Sample.always (inl (Exn OtherException "Connection refused"))))
                           (Parsed (Enrich ["example.com"; "other.org"])))
     = [ JObj [("domains", JArr [JStr "example.com"; JStr "other.org"])] ].
Proof. split; vm_compute; reflexivity. Qed.

(** C7. Trailing whitespace of the credential file is stripped before use:
    when the file holds a key followed by whitespace only (as in [ABC123]
    followed by a line feed), [read_api_key] returns the key itself, and the
    key is what the requests carry as their [X-Api-Key] header: every
    request of every run does, the one request that each of [company],
    [create] and [enrich] sends does, and so does the request of every row
    of an upload. *)
Theorem trailing_whitespace_stripped (E : env) (argv : docopt_result) (key w : string) :
  PyStr.all_space w = true ->
  PyStr.first_nonspace key = true -> PyStr.last_nonspace key = true ->
  env_fs E !! "api_key.key" = Some (File (key +:+ w)) ->
  (forall s, (read_api_key E s).2 = Ok key)
  /\ Forall (fun r => req_headers r !! "X-Api-Key" = Some key) (posts (effects E argv))
  /\ (forall query,
        exists r, posts (effects E (Parsed (Company query))) = [r]
                  /\ req_headers r !! "X-Api-Key" = Some key)
  /\ (forall name email company,
        exists r, posts (effects E (Parsed (Create name email company))) = [r]
                  /\ req_headers r !! "X-Api-Key" = Some key)
  /\ (forall domains,
        exists r, posts (effects E (Parsed (Enrich domains))) = [r]
                  /\ req_headers r !! "X-Api-Key" = Some key)
  /\ (forall data_type file_path n rows,
        env_fs E !! file_path = Some n ->
        env_read_csv E file_path = inr rows ->
        data_type = "contact" \/ data_type = "company" ->
        (fun r => req_headers r !! "X-Api-Key")
          <$> posts (effects E (Parsed (Upload data_type file_path)))
        = replicate (length rows) (Some key)).
Proof.
  intros Hw Hf Hl H.
  assert (PyStr.strip (key +:+ w) = key) as Hstrip.
  { by apply (strip_surrounded EmptyString key w). }
  split; [|split; [|split; [|split; [|split]]]].
  - intros s. rewrite (read_api_key_file _ _ _ H). simpl. by rewrite Hstrip.
  - eapply Forall_impl; [by apply requests_carry_key|].
    intros r ->. simpl. rewrite Hstrip. apply make_headers_key.
  - intros query. eexists. unfold effects. rewrite (run_company E _ H).
    cbn [snd posts]. rewrite company_events_posts. split; [reflexivity|].
    cbn [company_request req_headers]. rewrite Hstrip. apply make_headers_key.
  - intros name email company. eexists. unfold effects. rewrite (run_create E _ H).
    cbn [snd posts]. rewrite create_events_posts. split; [reflexivity|].
    cbn [create_request req_headers]. rewrite Hstrip. apply make_headers_key.
  - intros domains. eexists. unfold effects. rewrite (run_enrich E _ H).
    cbn [snd posts]. rewrite enrich_events_posts. split; [reflexivity|].
    cbn [enrich_request req_headers]. rewrite Hstrip. apply make_headers_key.
  - intros data_type file_path n rows Hfile Hread Htype.
    assert (exists url, upload_url data_type = Some url) as [url Hurl].
    { unfold upload_url. destruct Htype as [->| ->]; by eexists. }
    unfold effects.
    rewrite (run_upload_rows E _ H data_type file_path url n rows Hfile Hread Hurl).
    cbn [snd]. rewrite posts_app, upload_events_posts. cbn [posts app].
    rewrite Hstrip. clear. induction rows as [|r rows IH]; [done|].
    cbn [fmap list_fmap length replicate upload_request req_headers].
    rewrite make_headers_key. f_equal. exact IH.
Qed.

Lemma trailing_whitespace_stripped_witness :
  (forall s, (read_api_key (Sample.world ("ABC123" +:+ PyStr.LF) Sample.second_fails) s).2
             = Ok "ABC123")
  /\ Forall (fun r => req_headers r !! "X-Api-Key" = Some "ABC123")
       (posts (effects (Sample.world ("ABC123" +:+ PyStr.LF) Sample.second_fails)
                 (Parsed (Company "acme"))))
  /\ (exists r,
        posts (effects (Sample.world ("ABC123" +:+ PyStr.LF) Sample.second_fails)
                 (Parsed (Company "acme"))) = [r]
        /\ req_headers r !! "X-Api-Key" = Some "ABC123")
  /\ (fun r => req_headers r !! "X-Api-Key")
       <$> posts (effects (Sample.world ("ABC123" +:+ PyStr.LF) Sample.second_fails)
                    (Parsed (Upload "contact" "rows.csv")))
     = replicate (length Sample.rows3) (Some "ABC123").
Proof.
  destruct (trailing_whitespace_stripped
              (Sample.world ("ABC123" +:+ PyStr.LF) Sample.second_fails)
              (Parsed (Company "acme")) "ABC123" PyStr.LF)
    as (Hread & Hall & Hcompany & _ & _ & Hupload).
  - vm_compute. reflexivity.
  - vm_compute. reflexivity.
  - vm_compute. reflexivity.
  - vm_compute. reflexivity.
  - split; [exact Hread|]. split; [exact Hall|]. split; [exact (Hcompany "acme")|].
    apply (Hupload "contact" "rows.csv" (File Sample.table_text) Sample.rows3).
    + vm_compute. reflexivity.
    + vm_compute. reflexivity.
    + left. reflexivity.
Defined.

(** ** The messages of [create] *)

(** C4, as stated, fails: a response with status 201 whose body is not JSON
    makes [response.json()] raise inside the [try], so the error is printed
    and logged and no [Contact created] message appears. *)
Lemma created_without_message :
  status_code (Sample.answer 201 "Created" "<html>" Sample.not_json) = 201
  /\ printed (effects (Sample.world "ABC123"
                         (Sample.always (inr (Sample.answer 201 "Created" "<html>" Sample.not_json))))
                (Parsed (Create "Ada" "ada@example.com" "Acme")))
     = [ "An error occurred: Expecting value: line 1 column 1 (char 0)" ]
  /\ ~ prints_created
         (effects (Sample.world "ABC123"
                     (Sample.always (inr (Sample.answer 201 "Created" "<html>" Sample.not_json))))
            (Parsed (Create "Ada" "ada@example.com" "Acme"))).
Proof.
  assert (printed (effects (Sample.world "ABC123"
                       (Sample.always (inr (Sample.answer 201 "Created" "<html>" Sample.not_json))))
                    (Parsed (Create "Ada" "ada@example.com" "Acme")))
          = [ "An error occurred: Expecting value: line 1 column 1 (char 0)" ]) as Hp.
  { vm_compute. reflexivity. }
  split; [done|]. split; [exact Hp|].
  intros [rest H]. rewrite Hp in H.
  apply list_elem_of_In in H. simpl in H.
  destruct H as [H|[]]. discriminate H.
Qed.

(** C4, amended. A [create] call whose response has status 201 and a body
    that decodes as JSON prints [Contact created:] followed by the decoded
    value, and one whose response has status 200 prints [Solicitud aceptada:]
    (request accepted) followed by the text of the response; nothing else is
    printed, nothing is logged, and the two messages always differ. With
    status 201 and a body that does not decode, the decoding error is
    printed and logged instead. *)
Theorem create_messages (E : env) (content name email company : string) (resp : response) :
  env_fs E !! "api_key.key" = Some (File content) ->
  env_post E 0 (create_request (make_headers (PyStr.strip content)) name email company)
  = inr resp ->
  (status_code resp = 201 ->
   match resp_json resp with
   | inr created =>
       printed (effects E (Parsed (Create name email company)))
       = ["Contact created: " +:+ env_str_json E created]
       /\ logged (effects E (Parsed (Create name email company))) = []
   | inl e =>
       printed (effects E (Parsed (Create name email company))) = [error_report e]
       /\ logged (effects E (Parsed (Create name email company))) = [error_report e]
   end)
  /\ (status_code resp = 200 ->
      printed (effects E (Parsed (Create name email company)))
      = ["Solicitud aceptada: " +:+ resp_text resp]
      /\ logged (effects E (Parsed (Create name email company))) = [])
  /\ (forall created text : string,
        "Contact created: " +:+ created <> "Solicitud aceptada: " +:+ text).
Proof.
  intros Hkey Hpost. unfold effects. rewrite (run_create E content Hkey), Hpost.
  cbn [snd printed logged create_events]. repeat split.
  - intros H201. rewrite http_error_success by lia.
    rewrite decide_True by done. by destruct (resp_json resp).
  - rewrite http_error_success by lia.
    rewrite decide_False by lia. by rewrite decide_True.
  - rewrite http_error_success by lia.
    rewrite decide_False by lia. by rewrite decide_True.
  - discriminate.
Qed.

Lemma create_messages_witness :
  (printed (effects (Sample.world "ABC123"
                       (Sample.always (inr (Sample.answer 201 "Created" "{}" (inr (JObj []))))))
              (Parsed (Create "Ada" "ada@example.com" "Acme")))
   = ["Contact created: " +:+ "<json>"]
   /\ logged (effects (Sample.world "ABC123"
                         (Sample.always (inr (Sample.answer 201 "Created" "{}" (inr (JObj []))))))
                (Parsed (Create "Ada" "ada@example.com" "Acme"))) = [])
  /\ (printed (effects (Sample.world "ABC123"
                          (Sample.always (inr (Sample.answer 200 "OK" "queued" Sample.not_json))))
                 (Parsed (Create "Ada" "ada@example.com" "Acme")))
      = ["Solicitud aceptada: " +:+ "queued"]
      /\ logged (effects (Sample.world "ABC123"
                            (Sample.always (inr (Sample.answer 200 "OK" "queued" Sample.not_json))))
                   (Parsed (Create "Ada" "ada@example.com" "Acme"))) = []).
Proof.
  split.
  - apply (create_messages
             (Sample.world "ABC123"
                (Sample.always (inr (Sample.answer 201 "Created" "{}" (inr (JObj []))))))
             "ABC123" "Ada" "ada@example.com" "Acme"
             (Sample.answer 201 "Created" "{}" (inr (JObj []))));
      vm_compute; reflexivity.
  - apply (create_messages
             (Sample.world "ABC123"
                (Sample.always (inr (Sample.answer 200 "OK" "queued" Sample.not_json))))
             "ABC123" "Ada" "ada@example.com" "Acme"
             (Sample.answer 200 "OK" "queued" Sample.not_json));
      vm_compute; reflexivity.
Defined.

(** ** Exit code and the reporting of failures *)

(** C6, as stated, fails three times. An HTTP error status in the [enrich]
    handler is printed but not logged. An [upload] of a path that exists but
    that [pd.read_csv] cannot open (a directory) raises an [OSError] that
    the script does not catch, so the process ends with a traceback and
    code 1 although the credential file exists and the subcommand is valid.
    And a credential path that exists ([os.path.exists] holds) without
    being a readable file makes [open] raise an error other than
    [FileNotFoundError], which the script does not catch either: the
    process ends with code 1 before any handler runs. *)
Lemma failure_not_logged_or_fatal :
  (env_fs (Sample.world "ABC123"
             (Sample.always (inr (Sample.answer 500 "Internal Server Error" "oops"
                                    Sample.not_json))))
     !! "api_key.key" = Some (File "ABC123")
   /\ logged (effects (Sample.world "ABC123"
                         (Sample.always (inr (Sample.answer 500 "Internal Server Error" "oops"
                                                Sample.not_json))))
                (Parsed (Enrich ["example.com"]))) = []
   /\ ~ failures_reported
          (Sample.world "ABC123"
             (Sample.always (inr (Sample.answer 500 "Internal Server Error" "oops"
                                    Sample.not_json))))
          (effects (Sample.world "ABC123"
                      (Sample.always (inr (Sample.answer 500 "Internal Server Error" "oops"
                                             Sample.not_json))))
             (Parsed (Enrich ["example.com"]))))
  /\ (env_fs (Sample.world "ABC123" Sample.second_fails) !! "api_key.key"
      = Some (File "ABC123")
      /\ run (Sample.world "ABC123" Sample.second_fails) (Parsed (Upload "contact" "data"))
         = (1, [ OpenRead "api_key.key"; ReadCsv "data";
                 Traceback (Exn OtherException "[Errno 21] Is a directory: 'data'") ]))
  /\ (path_exists Sample.key_is_directory "api_key.key" = true
      /\ run Sample.key_is_directory (Parsed (Company "Acme"))
         = (1, [ Traceback (Exn OtherException
                              "[Errno 21] Is a directory: 'api_key.key'") ])).
Proof.
  split; [|split; split; vm_compute; reflexivity].
  set (W := Sample.world "ABC123" _).
  assert (logged (effects W (Parsed (Enrich ["example.com"]))) = []) as Hlog.
  { vm_compute. reflexivity. }
  split; [vm_compute; reflexivity|]. split; [exact Hlog|].
  intros H.
  destruct (H 0%nat (enrich_request (make_headers "ABC123") ["example.com"])
              (Exn HTTPError
                 "500 Server Error: Internal Server Error for url: https://api.apollo.io/"))
    as (pre & _ & Hin).
  - vm_compute. reflexivity.
  - vm_compute. reflexivity.
  - rewrite Hlog in Hin. by apply not_elem_of_nil in Hin.
Qed.

Lemma error_report_suffix (e : exn) : exists pre, error_report e = pre +:+ exn_msg e.
Proof. unfold error_report. by eexists. Qed.

Lemma report_events_reported (tr : list event) (e : exn) :
  printed_and_logged (tr ++ report_events e) e.
Proof.
  destruct (error_report_suffix e) as [pre Hpre]. exists pre.
  rewrite printed_app, logged_app, <- Hpre. simpl.
  split; apply elem_of_app; right; apply list_elem_of_here.
Qed.

Lemma company_events_failure (o : exn + response) (e : exn) :
  call_error o = Some e -> company_events o = report_events e.
Proof.
  destruct o as [e'|resp]; simpl; [by intros [= ->]|].
  by intros ->.
Qed.

Lemma create_events_failure (E : env) (o : exn + response) (e : exn) :
  call_error o = Some e -> create_events E o = report_events e.
Proof.
  destruct o as [e'|resp]; simpl; [by intros [= ->]|].
  by intros ->.
Qed.

Lemma singleton_lookup {A : Type} (x y : A) (k : nat) :
  [x] !! k = Some y -> k = 0%nat /\ y = x.
Proof. destruct k as [|k]; simpl; [by intros [= ->]|]. by destruct k. Qed.

(** C6, amended. Whenever the credential file is a readable text file (it
    exists, and [open] and [read] give its text) and a valid subcommand is
    given, and [pd.read_csv] raises nothing but a [ValueError] or a
    [FileNotFoundError] on the upload file, the process exits with code 0
    whatever the service answers. Every failed remote call (a transport
    error or an HTTP error status) of the company, create and upload
    handlers, and every transport error of the enrich handler, is printed
    and logged; an HTTP error status in the enrich handler is printed, as
    the status and the text of the response, and nothing is logged. *)
Theorem api_failures_never_fatal (E : env) (content : string) (a : arguments) :
  env_fs E !! "api_key.key" = Some (File content) ->
  (forall t f e, a = Upload t f -> env_read_csv E f = inl e ->
                 is_FileNotFoundError_or_ValueError e = true) ->
  exit_code E (Parsed a) = 0
  /\ forall k r e,
       posts (effects E (Parsed a)) !! k = Some r ->
       call_error (env_post E k r) = Some e ->
       match a, env_post E k r with
       | Enrich _, inr resp =>
           ("Error: " +:+ pretty (status_code resp)) ∈ printed (effects E (Parsed a))
           /\ resp_text resp ∈ printed (effects E (Parsed a))
           /\ logged (effects E (Parsed a)) = []
       | _, _ => printed_and_logged (effects E (Parsed a)) e
       end.
Proof.
  intros Hkey Hread. unfold exit_code, effects.
  destruct a as [query|name email company|t f|domains].
  - rewrite (run_company E content Hkey). split; [done|].
    cbn [fst snd posts]. rewrite company_events_posts.
    intros k r e [-> ->]%singleton_lookup He.
    rewrite (company_events_failure _ _ He).
    apply (report_events_reported [OpenRead "api_key.key"; Post _] e).
  - rewrite (run_create E content Hkey). split; [done|].
    cbn [fst snd posts]. rewrite create_events_posts.
    intros k r e [-> ->]%singleton_lookup He.
    rewrite (create_events_failure _ _ _ He).
    apply (report_events_reported [OpenRead "api_key.key"; Post _] e).
  - destruct (env_fs E !! f) as [n|] eqn:Hf;
      [|by rewrite (run_upload_missing E content Hkey t f Hf)].
    destruct (env_read_csv E f) as [e'|rows] eqn:Hcsv.
    { rewrite (run_upload_unreadable E content Hkey t f n e' Hf Hcsv).
      by rewrite (Hread t f e' eq_refl Hcsv). }
    destruct (upload_url t) as [url|] eqn:Hurl.
    + rewrite (run_upload_rows E content Hkey t f url n rows Hf Hcsv Hurl).
      split; [done|]. cbn [fst snd]. unfold printed_and_logged.
      rewrite posts_app, printed_app, logged_app.
      rewrite upload_events_posts, upload_events_printed.
      cbn [posts printed logged app].
      intros k r e Hk He.
      apply list_lookup_fmap_Some in Hk as (row & -> & Hrow).
      destruct (error_report_suffix e) as [pre Hpre]. exists pre.
      rewrite <- Hpre. split.
      * apply list_elem_of_lookup. exists k.
        rewrite list_lookup_imap, Hrow. simpl. unfold upload_line. by rewrite He.
      * by apply (upload_events_logged E url _ 0 rows k row e).
    + assert (t <> "contact" /\ t <> "company") as [H1 H2].
      { unfold upload_url in Hurl.
        destruct (decide (t = "contact")); [done|].
        by destruct (decide (t = "company")). }
      by rewrite (run_upload_unsupported E content Hkey t f n rows Hf Hcsv H1 H2).
  - rewrite (run_enrich E content Hkey). split; [done|].
    cbn [fst snd posts]. rewrite enrich_events_posts.
    intros k r e [-> ->]%singleton_lookup He.
    destruct (env_post E 0 _) as [e'|resp] eqn:Hpost.
    + simpl in He. injection He as ->. exists "Error: ".
      cbn [enrich_events enrich_report_events printed logged].
      split; apply list_elem_of_here.
    + simpl in He. apply http_error_status in He.
      cbn [enrich_events]. rewrite decide_False by lia.
      cbn [printed logged]. repeat split.
      * apply list_elem_of_here.
      * apply list_elem_of_further, list_elem_of_here.
Qed.

Lemma api_failures_never_fatal_witness :
  exit_code (Sample.world "ABC123" Sample.second_fails) (Parsed (Upload "contact" "rows.csv")) = 0
  /\ printed_and_logged
       (effects (Sample.world "ABC123" Sample.second_fails)
          (Parsed (Upload "contact" "rows.csv")))
       (Exn HTTPError
          "500 Server Error: Internal Server Error for url: https://api.apollo.io/").
Proof.
  destruct (api_failures_never_fatal (Sample.world "ABC123" Sample.second_fails)
              "ABC123" (Upload "contact" "rows.csv")) as [Hexit Hreported].
  - vm_compute. reflexivity.
  - intros t f e [= <- <-] H. vm_compute in H. discriminate H.
  - split; [exact Hexit|].
    apply (Hreported 1%nat
             (upload_request "https://api.apollo.io/v1/contacts" (make_headers "ABC123")
                [("first_name", JStr "Bob"); ("email", JStr "bob@example.com")])
             (Exn HTTPError
                "500 Server Error: Internal Server Error for url: https://api.apollo.io/"));
      vm_compute; reflexivity.
Defined.

(** The failures of C6, run: a status 500 and a refused connection in each
    of the four handlers end with exit code 0, and only [enrich] with the
    status 500 logs nothing. *)
Example failures_run :
  let failed := Sample.always (inr (Sample.answer 500 "Internal Server Error" "oops"
                                      Sample.not_json)) in
  let refused := Sample.always (inl (Exn OtherException "Connection refused")) in
  let commands := [ Company "acme"; Create "Ada" "ada@example.com" "Acme";
                    Upload "contact" "rows.csv"; Enrich ["example.com"] ] in
  (fun a => (exit_code (Sample.world "ABC123" failed) (Parsed a),
             length (logged (effects (Sample.world "ABC123" failed) (Parsed a)))))
    <$> commands
  = [ (0, 1%nat); (0, 1%nat); (0, 3%nat); (0, 0%nat) ]
  /\ (fun a => (exit_code (Sample.world "ABC123" refused) (Parsed a),
                length (logged (effects (Sample.world "ABC123" refused) (Parsed a)))))
       <$> commands
     = [ (0, 1%nat); (0, 1%nat); (0, 3%nat); (0, 1%nat) ].
Proof. split; vm_compute; reflexivity. Qed.

(** * Further properties of the handlers *)

(** ** The handlers of one request, outcome by outcome *)

Lemma http_error_none (resp : response) :
  status_code resp < 400 \/ 600 <= status_code resp -> http_error resp = None.
Proof.
  intros H. destruct (http_error resp) as [e|] eqn:He; [|done].
  apply http_error_status in He. lia.
Qed.

(** The message of [raise_for_status] for a status from 400 to 599. *)
Lemma http_error_message (resp : response) :
  400 <= status_code resp < 600 ->
  http_error resp
  = Some (Exn HTTPError
            (pretty (status_code resp)
             +:+ (if status_code resp <? 500 then " Client Error: " else " Server Error: ")
             +:+ resp_reason resp +:+ " for url: " +:+ resp_url resp)).
Proof.
  intros [H1 H2]. unfold http_error. cbv zeta.
  destruct (Z.ltb_spec (status_code resp) 500) as [H5|H5].
  - rewrite (proj2 (Z.leb_le _ _) H1). reflexivity.
  - rewrite (proj2 (Z.leb_le _ _) H1).
    rewrite (proj2 (Z.leb_le 500 _) H5), (proj2 (Z.ltb_lt _ 600) H2). reflexivity.
Qed.

(** X1. The company search issues exactly one POST request, to the accounts
    endpoint, whose JSON body is the object with the single field [name]
    holding the query; this is so whatever the service answers, so a failed
    search is never retried. *)
Theorem company_sends_one_request (E : env) (content query : string) :
  env_fs E !! "api_key.key" = Some (File content) ->
  posts (effects E (Parsed (Company query)))
  = [ Request "https://api.apollo.io/v1/accounts"
        (make_headers (PyStr.strip content)) (JObj [("name", JStr query)]) ].
Proof.
  intros Hkey. unfold effects. rewrite (run_company E content Hkey).
  cbn [snd posts]. by rewrite company_events_posts.
Qed.

Lemma company_sends_one_request_witness :
  posts (effects (Sample.world "ABC123" (Sample.always (inl (Exn OtherException "timed out"))))
           (Parsed (Company "Acme")))
  = [ Request "https://api.apollo.io/v1/accounts"
        (make_headers (PyStr.strip "ABC123")) (JObj [("name", JStr "Acme")]) ].
Proof.
  apply (company_sends_one_request
           (Sample.world "ABC123" (Sample.always (inl (Exn OtherException "timed out"))))
           "ABC123" "Acme").
  vm_compute. reflexivity.
Defined.

(** X2. The contact creation issues exactly one POST request, to the
    contacts endpoint, whose JSON body holds the three arguments under
    [first_name], [email] and [company], in that order; this is so whatever
    the service answers. *)
Theorem create_sends_one_request (E : env) (content name email company : string) :
  env_fs E !! "api_key.key" = Some (File content) ->
  posts (effects E (Parsed (Create name email company)))
  = [ Request "https://api.apollo.io/v1/contacts"
        (make_headers (PyStr.strip content))
        (JObj [("first_name", JStr name); ("email", JStr email);
               ("company", JStr company)]) ].
Proof.
  intros Hkey. unfold effects. rewrite (run_create E content Hkey).
  cbn [snd posts]. by rewrite create_events_posts.
Qed.

Lemma create_sends_one_request_witness :
  posts (effects (Sample.world "ABC123" Sample.second_fails)
           (Parsed (Create "Ada" "ada@example.com" "Acme")))
  = [ Request "https://api.apollo.io/v1/contacts"
        (make_headers (PyStr.strip "ABC123"))
        (JObj [("first_name", JStr "Ada"); ("email", JStr "ada@example.com");
               ("company", JStr "Acme")]) ].
Proof.
  apply (create_sends_one_request (Sample.world "ABC123" Sample.second_fails)
           "ABC123" "Ada" "ada@example.com" "Acme").
  vm_compute. reflexivity.
Defined.

(** X3. The company search does not look at the status beyond
    [raise_for_status]: for every status outside 400 to 599 (204 or 302 as
    well as 200) whose body decodes as JSON, the run is the request followed
    by the pretty-printed body, and the process exits with code 0. *)
Theorem company_prints_every_accepted_answer (E : env) (content query : string)
    (resp : response) (data : json) :
  env_fs E !! "api_key.key" = Some (File content) ->
  env_post E 0 (company_request (make_headers (PyStr.strip content)) query) = inr resp ->
  status_code resp < 400 \/ 600 <= status_code resp ->
  resp_json resp = inr data ->
  run E (Parsed (Company query))
  = (0, OpenRead "api_key.key"
        :: Post (company_request (make_headers (PyStr.strip content)) query)
        :: (pretty_print_json data initial).1.(trace)).
Proof.
  intros Hkey Hpost Hstatus Hjson.
  rewrite (run_company E content Hkey), Hpost. cbn [company_events].
  rewrite (http_error_none _ Hstatus), Hjson.
  by rewrite pretty_print_json_run.
Qed.

Lemma company_prints_every_accepted_answer_witness :
  run (Sample.world "ABC123"
         (Sample.always (inr (Sample.answer 302 "Found" "[]" (inr (JArr [JInt 7]))))))
      (Parsed (Company "Acme"))
  = (0, OpenRead "api_key.key"
        :: Post (company_request (make_headers (PyStr.strip "ABC123")) "Acme")
        :: (pretty_print_json (JArr [JInt 7]) initial).1.(trace)).
Proof.
  apply (company_prints_every_accepted_answer
           (Sample.world "ABC123"
              (Sample.always (inr (Sample.answer 302 "Found" "[]" (inr (JArr [JInt 7]))))))
           "ABC123" "Acme" (Sample.answer 302 "Found" "[]" (inr (JArr [JInt 7])))
           (JArr [JInt 7])).
  - vm_compute. reflexivity.
  - vm_compute. reflexivity.
  - left. simpl. lia.
  - reflexivity.
Defined.

(** X4. A company search answered with a status from 400 to 599 prints and
    then logs one line, [HTTP error occurred:] followed by the status, the
    kind of error (client below 500, server from 500), the reason and the
    URL; the body of the response is neither decoded nor printed, and the
    process exits with code 0. *)
Theorem company_http_error_report (E : env) (content query : string) (resp : response) :
  env_fs E !! "api_key.key" = Some (File content) ->
  env_post E 0 (company_request (make_headers (PyStr.strip content)) query) = inr resp ->
  400 <= status_code resp < 600 ->
  run E (Parsed (Company query))
  = (0, [ OpenRead "api_key.key";
          Post (company_request (make_headers (PyStr.strip content)) query);
          Print ("HTTP error occurred: " +:+ pretty (status_code resp)
                 +:+ (if status_code resp <? 500 then " Client Error: "
                      else " Server Error: ")
                 +:+ resp_reason resp +:+ " for url: " +:+ resp_url resp);
          LogError ("HTTP error occurred: " +:+ pretty (status_code resp)
                    +:+ (if status_code resp <? 500 then " Client Error: "
                         else " Server Error: ")
                    +:+ resp_reason resp +:+ " for url: " +:+ resp_url resp) ]).
Proof.
  intros Hkey Hpost Hstatus.
  rewrite (run_company E content Hkey), Hpost. cbn [company_events].
  rewrite (http_error_message _ Hstatus). reflexivity.
Qed.

Lemma company_http_error_report_witness :
  run (Sample.world "ABC123"
         (Sample.always (inr (Sample.answer 404 "Not Found" "{}" (inr (JObj []))))))
      (Parsed (Company "Acme"))
  = (0, [ OpenRead "api_key.key";
          Post (company_request (make_headers (PyStr.strip "ABC123")) "Acme");
          Print ("HTTP error occurred: " +:+ pretty 404
                 +:+ (if 404 <? 500 then " Client Error: " else " Server Error: ")
                 +:+ "Not Found" +:+ " for url: " +:+ "https://api.apollo.io/");
          LogError ("HTTP error occurred: " +:+ pretty 404
                    +:+ (if 404 <? 500 then " Client Error: " else " Server Error: ")
                    +:+ "Not Found" +:+ " for url: " +:+ "https://api.apollo.io/") ]).
Proof.
  apply (company_http_error_report
           (Sample.world "ABC123"
              (Sample.always (inr (Sample.answer 404 "Not Found" "{}" (inr (JObj []))))))
           "ABC123" "Acme" (Sample.answer 404 "Not Found" "{}" (inr (JObj [])))).
  - vm_compute. reflexivity.
  - vm_compute. reflexivity.
  - simpl. lia.
Defined.

(** X5. A create call answered with a status that [raise_for_status] accepts
    and that is neither 201 nor 200 (202 or 204, say) is silent: after the
    request nothing is printed and nothing is logged, and the process exits
    with code 0. *)
Theorem create_other_status_is_silent (E : env) (content name email company : string)
    (resp : response) :
  env_fs E !! "api_key.key" = Some (File content) ->
  env_post E 0 (create_request (make_headers (PyStr.strip content)) name email company)
  = inr resp ->
  status_code resp < 400 \/ 600 <= status_code resp ->
  status_code resp <> 201 -> status_code resp <> 200 ->
  run E (Parsed (Create name email company))
  = (0, [ OpenRead "api_key.key";
          Post (create_request (make_headers (PyStr.strip content)) name email company) ]).
Proof.
  intros Hkey Hpost Hstatus H201 H200.
  rewrite (run_create E content Hkey), Hpost. cbn [create_events].
  rewrite (http_error_none _ Hstatus).
  by rewrite !decide_False.
Qed.

Lemma create_other_status_is_silent_witness :
  run (Sample.world "ABC123"
         (Sample.always (inr (Sample.answer 204 "No Content" "gone" Sample.not_json))))
      (Parsed (Create "Ada" "ada@example.com" "Acme"))
  = (0, [ OpenRead "api_key.key";
          Post (create_request (make_headers (PyStr.strip "ABC123"))
                  "Ada" "ada@example.com" "Acme") ]).
Proof.
  apply (create_other_status_is_silent
           (Sample.world "ABC123"
              (Sample.always (inr (Sample.answer 204 "No Content" "gone" Sample.not_json))))
           "ABC123" "Ada" "ada@example.com" "Acme"
           (Sample.answer 204 "No Content" "gone" Sample.not_json)).
  - vm_compute. reflexivity.
  - vm_compute. reflexivity.
  - left. simpl. lia.
  - simpl. lia.
  - simpl. lia.
Defined.

(** X6. A transport error of the create call (an exception of
    [requests.post] that is not an [HTTPError]) is printed and then logged as
    [An error occurred:] followed by the text of the exception; nothing else
    happens after the request and the process exits with code 0. *)
Theorem create_transport_error_report (E : env) (content name email company : string)
    (e : exn) :
  env_fs E !! "api_key.key" = Some (File content) ->
  env_post E 0 (create_request (make_headers (PyStr.strip content)) name email company)
  = inl e ->
  is_HTTPError e = false ->
  run E (Parsed (Create name email company))
  = (0, [ OpenRead "api_key.key";
          Post (create_request (make_headers (PyStr.strip content)) name email company);
          Print ("An error occurred: " +:+ exn_msg e);
          LogError ("An error occurred: " +:+ exn_msg e) ]).
Proof.
  intros Hkey Hpost Hcls.
  rewrite (run_create E content Hkey), Hpost.
  cbn [create_events]. unfold report_events, error_report. by rewrite Hcls.
Qed.

Lemma create_transport_error_report_witness :
  run (Sample.world "ABC123"
         (Sample.always (inl (Exn OtherException "Connection refused"))))
      (Parsed (Create "Ada" "ada@example.com" "Acme"))
  = (0, [ OpenRead "api_key.key";
          Post (create_request (make_headers (PyStr.strip "ABC123"))
                  "Ada" "ada@example.com" "Acme");
          Print ("An error occurred: " +:+ "Connection refused");
          LogError ("An error occurred: " +:+ "Connection refused") ]).
Proof.
  apply (create_transport_error_report
           (Sample.world "ABC123"
              (Sample.always (inl (Exn OtherException "Connection refused"))))
           "ABC123" "Ada" "ada@example.com" "Acme"
           (Exn OtherException "Connection refused")).
  - vm_compute. reflexivity.
  - vm_compute. reflexivity.
  - reflexivity.
Defined.

(** X7. The enrich handler takes every status other than 200 for a failure,
    a success status such as 201 or 204 included: it prints [Error:] with
    the status and then the text of the response, never decodes the body,
    logs nothing, and the process exits with code 0. *)
Theorem enrich_only_200_succeeds (E : env) (content : string) (domains : list string)
    (resp : response) :
  env_fs E !! "api_key.key" = Some (File content) ->
  env_post E 0 (enrich_request (make_headers (PyStr.strip content)) domains) = inr resp ->
  status_code resp <> 200 ->
  run E (Parsed (Enrich domains))
  = (0, [ OpenRead "api_key.key";
          Post (enrich_request (make_headers (PyStr.strip content)) domains);
          Print ("Error: " +:+ pretty (status_code resp));
          Print (resp_text resp) ]).
Proof.
  intros Hkey Hpost Hstatus.
  rewrite (run_enrich E content Hkey), Hpost. cbn [enrich_events].
  by rewrite decide_False.
Qed.

Lemma enrich_only_200_succeeds_witness :
  run (Sample.world "ABC123"
         (Sample.always (inr (Sample.answer 201 "Created" "[]" (inr (JArr []))))))
      (Parsed (Enrich ["example.com"]))
  = (0, [ OpenRead "api_key.key";
          Post (enrich_request (make_headers (PyStr.strip "ABC123")) ["example.com"]);
          Print ("Error: " +:+ pretty 201);
          Print "[]" ]).
Proof.
  apply (enrich_only_200_succeeds
           (Sample.world "ABC123"
              (Sample.always (inr (Sample.answer 201 "Created" "[]" (inr (JArr []))))))
           "ABC123" ["example.com"] (Sample.answer 201 "Created" "[]" (inr (JArr [])))).
  - vm_compute. reflexivity.
  - vm_compute. reflexivity.
  - simpl. lia.
Defined.

(** X8. An enrich call answered with status 200 pretty-prints the decoded
    body; when the body does not decode, the exception of [response.json()]
    leaves [enrich_domains] and the script prints and then logs it as
    [Error:] followed by its text. Either way the exit code is 0. *)
Theorem enrich_200_answer (E : env) (content : string) (domains : list string)
    (resp : response) :
  env_fs E !! "api_key.key" = Some (File content) ->
  env_post E 0 (enrich_request (make_headers (PyStr.strip content)) domains) = inr resp ->
  status_code resp = 200 ->
  run E (Parsed (Enrich domains))
  = (0, OpenRead "api_key.key"
        :: Post (enrich_request (make_headers (PyStr.strip content)) domains)
        :: match resp_json resp with
           | inr data => (pretty_print_json data initial).1.(trace)
           | inl e => [ Print ("Error: " +:+ exn_msg e);
                        LogError ("Error: " +:+ exn_msg e) ]
           end).
Proof.
  intros Hkey Hpost Hstatus.
  rewrite (run_enrich E content Hkey), Hpost. cbn [enrich_events].
  rewrite decide_True by done.
  destruct (resp_json resp) as [e|data]; [done|].
  by rewrite pretty_print_json_run.
Qed.

Lemma enrich_200_answer_witness :
  run (Sample.world "ABC123"
         (Sample.always (inr (Sample.answer 200 "OK" "<html>" Sample.not_json))))
      (Parsed (Enrich ["example.com"]))
  = (0, [ OpenRead "api_key.key";
          Post (enrich_request (make_headers (PyStr.strip "ABC123")) ["example.com"]);
          Print ("Error: " +:+ "Expecting value: line 1 column 1 (char 0)");
          LogError ("Error: " +:+ "Expecting value: line 1 column 1 (char 0)") ]).
Proof.
  apply (enrich_200_answer
           (Sample.world "ABC123"
              (Sample.always (inr (Sample.answer 200 "OK" "<html>" Sample.not_json))))
           "ABC123" ["example.com"] (Sample.answer 200 "OK" "<html>" Sample.not_json)).
  - vm_compute. reflexivity.
  - vm_compute. reflexivity.
  - reflexivity.
Defined.

(** ** The credential and the headers *)

Lemma make_headers_size (api_key : string) : size (make_headers api_key) = 3%nat.
Proof.
  unfold make_headers, headers_t.
  rewrite !map_size_insert_None, map_size_singleton; [done| |];
    by simplify_map_eq.
Qed.

(** X9. Every request of every run carries the same three headers and no
    other: [Cache-Control: no-cache], [Content-Type: application/json] and
    [X-Api-Key] with the stripped content of the credential file. *)
Theorem requests_have_fixed_headers (E : env) (content : string) (argv : docopt_result) :
  env_fs E !! "api_key.key" = Some (File content) ->
  Forall (fun r =>
            req_headers r !! "Cache-Control" = Some "no-cache"
            /\ req_headers r !! "Content-Type" = Some "application/json"
            /\ req_headers r !! "X-Api-Key" = Some (PyStr.strip content)
            /\ size (req_headers r) = 3%nat)
         (posts (effects E argv)).
Proof.
  intros Hkey.
  eapply Forall_impl; [by apply (requests_carry_key E content argv)|].
  intros r ->. cbv beta. split; [|split; [|split]].
  - unfold make_headers. by simplify_map_eq.
  - unfold make_headers. by simplify_map_eq.
  - apply make_headers_key.
  - apply make_headers_size.
Qed.

Lemma requests_have_fixed_headers_witness :
  Forall (fun r =>
            req_headers r !! "Cache-Control" = Some "no-cache"
            /\ req_headers r !! "Content-Type" = Some "application/json"
            /\ req_headers r !! "X-Api-Key" = Some (PyStr.strip "ABC123")
            /\ size (req_headers r) = 3%nat)
         (posts (effects (Sample.world "ABC123" Sample.second_fails)
                   (Parsed (Upload "company" "rows.csv")))).
Proof.
  apply (requests_have_fixed_headers (Sample.world "ABC123" Sample.second_fails)
           "ABC123" (Parsed (Upload "company" "rows.csv"))).
  vm_compute. reflexivity.
Defined.

Section StripShape.
Import PyStr.

Lemma append_cons (c : ascii) (s t : string) : String c s +:+ t = String c (s +:+ t).
Proof. reflexivity. Qed.

Lemma lstrip_split (s : string) :
  exists w, all_space w = true /\ s = w +:+ lstrip s /\ first_nonspace (lstrip s) = true.
Proof.
  induction s as [|c s (w & Hw & Hs & Hf)].
  - by exists EmptyString.
  - cbn [lstrip]. destruct (isspace c) eqn:Hc.
    + exists (String c w). split; [|split].
      * simpl. by rewrite Hc, Hw.
      * rewrite append_cons. by f_equal.
      * exact Hf.
    + exists EmptyString. split; [done|]. split; [done|].
      simpl. by rewrite Hc.
Qed.

Lemma rstrip_split (s : string) :
  exists w, all_space w = true /\ s = rstrip s +:+ w /\ last_nonspace (rstrip s) = true.
Proof.
  induction s as [|c s (w & Hw & Hs & Hl)].
  - by exists EmptyString.
  - cbn [rstrip]. destruct (rstrip s) as [|c' r] eqn:Hr.
    + change (EmptyString +:+ w) with w in Hs. destruct (isspace c) eqn:Hc.
      * exists (String c w). split; [|split].
        -- simpl. by rewrite Hc, Hw.
        -- change (EmptyString +:+ String c w) with (String c w). by f_equal.
        -- done.
      * exists w. split; [done|]. split.
        -- rewrite append_cons. by f_equal.
        -- simpl. by rewrite Hc.
    + exists w. split; [done|]. split.
      * rewrite append_cons. f_equal. exact Hs.
      * exact Hl.
Qed.

Lemma rstrip_first_nonspace (s : string) :
  first_nonspace s = true -> first_nonspace (rstrip s) = true.
Proof.
  destruct s as [|c s]; [done|]. cbn [rstrip].
  intros Hc. cbn [first_nonspace] in Hc.
  destruct (rstrip s); [|exact Hc].
  destruct (isspace c) eqn:Hsp; [discriminate Hc|].
  cbn [first_nonspace]. by rewrite Hsp.
Qed.

Lemma strip_blank (w : string) : all_space w = true -> strip w = EmptyString.
Proof. intros Hw. unfold strip. by rewrite lstrip_all_space. Qed.

End StripShape.

(** X10. The key that [read_api_key] returns is the content of the
    credential file without a whitespace prefix and a whitespace suffix, and
    neither begins nor ends with whitespace itself: whitespace inside the
    key is kept, and nothing but whitespace is ever removed. *)
Theorem key_is_content_without_margins (E : env) (content : string) (s : state) :
  env_fs E !! "api_key.key" = Some (File content) ->
  exists key w1 w2,
    (read_api_key E s).2 = Ok key
    /\ content = w1 +:+ key +:+ w2
    /\ PyStr.all_space w1 = true /\ PyStr.all_space w2 = true
    /\ PyStr.first_nonspace key = true /\ PyStr.last_nonspace key = true.
Proof.
  intros Hkey. rewrite (read_api_key_file _ _ _ Hkey). cbn [snd].
  destruct (lstrip_split content) as (w1 & Hw1 & Hc & Hf).
  destruct (rstrip_split (PyStr.lstrip content)) as (w2 & Hw2 & Hl & Hlast).
  exists (PyStr.strip content), w1, w2. unfold PyStr.strip.
  repeat split; try done.
  - by rewrite <- Hl.
  - by apply rstrip_first_nonspace.
Qed.

Lemma key_is_content_without_margins_witness :
  exists key w1 w2,
    (read_api_key (Sample.world (" AB C" +:+ PyStr.LF) Sample.second_fails) initial).2 = Ok key
    /\ " AB C" +:+ PyStr.LF = w1 +:+ key +:+ w2
    /\ PyStr.all_space w1 = true /\ PyStr.all_space w2 = true
    /\ PyStr.first_nonspace key = true /\ PyStr.last_nonspace key = true.
Proof.
  apply (key_is_content_without_margins
           (Sample.world (" AB C" +:+ PyStr.LF) Sample.second_fails)
           (" AB C" +:+ PyStr.LF) initial).
  vm_compute. reflexivity.
Defined.

(** X11. A credential file that is empty or holds only whitespace is not
    rejected: [read_api_key] returns the empty string without raising, and
    every request of the run is sent with an empty [X-Api-Key]. *)
Theorem blank_credential_is_accepted (E : env) (content : string) (argv : docopt_result) :
  env_fs E !! "api_key.key" = Some (File content) ->
  PyStr.all_space content = true ->
  (forall s, (read_api_key E s).2 = Ok EmptyString)
  /\ Forall (fun r => req_headers r !! "X-Api-Key" = Some EmptyString)
       (posts (effects E argv)).
Proof.
  intros Hkey Hblank. split.
  - intros s. rewrite (read_api_key_file _ _ _ Hkey). cbn [snd].
    by rewrite strip_blank.
  - pose proof (requests_carry_key E content argv Hkey) as Hall.
    rewrite (strip_blank _ Hblank) in Hall.
    eapply Forall_impl; [exact Hall|].
    intros r ->. apply make_headers_key.
Qed.

Lemma blank_credential_is_accepted_witness :
  (forall s, (read_api_key (Sample.world (" " +:+ PyStr.LF) Sample.second_fails) s).2
             = Ok EmptyString)
  /\ Forall (fun r => req_headers r !! "X-Api-Key" = Some EmptyString)
       (posts (effects (Sample.world (" " +:+ PyStr.LF) Sample.second_fails)
                 (Parsed (Company "Acme")))).
Proof.
  apply (blank_credential_is_accepted
           (Sample.world (" " +:+ PyStr.LF) Sample.second_fails)
           (" " +:+ PyStr.LF) (Parsed (Company "Acme")));
    vm_compute; reflexivity.
Defined.

(** The request that a blank credential still sends. *)
Example blank_credential_request :
  (fun r => (req_url r, req_headers r !! "X-Api-Key"))
    <$> posts (effects (Sample.world (" " +:+ PyStr.LF) Sample.second_fails)
                 (Parsed (Company "Acme")))
  = [ ("https://api.apollo.io/v1/accounts", Some EmptyString) ].
Proof. vm_compute. reflexivity. Qed.

Lemma run_key_directory (E : env) (argv : docopt_result) :
  env_fs E !! "api_key.key" = Some Dir ->
  run E argv
  = (1, [ Traceback (Exn OtherException "[Errno 21] Is a directory: 'api_key.key'") ]).
Proof.
  intros Hkey. unfold run, main.
  rewrite bind_run, try_run. unfold read_api_key.
  rewrite bind_run, (path_exists_Some _ _ _ Hkey). cbn [negb].
  rewrite ret_run. cbv beta iota.
  rewrite bind_run. unfold open_read. rewrite Hkey, raise_run.
  reflexivity.
Qed.

Lemma run_without_key (E : env) (argv : docopt_result) :
  env_fs E !! "api_key.key" = None ->
  run E argv
  = (1, [ LogError "API key file 'api_key.key' not found.";
          Print "Error: API key file 'api_key.key' not found.";
          LogError "Exiting due to missing API key file." ]).
Proof.
  intros Hkey. unfold run, main.
  rewrite bind_run, try_run, (read_api_key_missing _ _ Hkey). reflexivity.
Qed.

(** X12. When the credential path exists but is a directory, [open] raises
    an error that is not a [FileNotFoundError]: the script does not catch
    it, so the run is a traceback and exit code 1, without the
    missing-credential message, whatever the command line. *)
Theorem credential_directory_is_uncaught (E : env) (argv : docopt_result) :
  env_fs E !! "api_key.key" = Some Dir ->
  run E argv
  = (1, [ Traceback (Exn OtherException "[Errno 21] Is a directory: 'api_key.key'") ])
  /\ posts (effects E argv) = []
  /\ forall line, line ∈ printed (effects E argv) -> False.
Proof.
  intros Hkey. split.
  - by apply run_key_directory.
  - unfold effects. rewrite (run_key_directory E argv Hkey). cbn [snd].
    split; [done|]. intros line Hin.
    apply not_elem_of_nil in Hin. done.
Qed.

Lemma credential_directory_is_uncaught_witness :
  run Sample.key_is_directory (Parsed (Company "Acme"))
  = (1, [ Traceback (Exn OtherException "[Errno 21] Is a directory: 'api_key.key'") ])
  /\ posts (effects Sample.key_is_directory (Parsed (Company "Acme"))) = []
  /\ forall line, line ∈ printed (effects Sample.key_is_directory (Parsed (Company "Acme")))
                  -> False.
Proof.
  apply (credential_directory_is_uncaught Sample.key_is_directory (Parsed (Company "Acme"))).
  vm_compute. reflexivity.
Defined.

(** ** The upload handler, case by case *)

(** X13. Whatever the type, [contact] and [company] included, an upload
    file that does not exist is reported as not found, logged by
    [upload_data] and then printed and logged by the script; the table is
    not read, no request is sent and the process exits with code 0. *)
Theorem upload_missing_file (E : env) (content data_type file_path : string) :
  env_fs E !! "api_key.key" = Some (File content) ->
  env_fs E !! file_path = None ->
  run E (Parsed (Upload data_type file_path))
  = (0, [ OpenRead "api_key.key";
          LogError ("CSV file '" +:+ file_path +:+ "' not found.");
          Print ("Error: CSV file '" +:+ file_path +:+ "' not found.");
          LogError ("Error: CSV file '" +:+ file_path +:+ "' not found.") ])
  /\ csv_reads (effects E (Parsed (Upload data_type file_path))) = []
  /\ posts (effects E (Parsed (Upload data_type file_path))) = [].
Proof.
  intros Hkey Hf. unfold effects.
  rewrite (run_upload E content Hkey).
  rewrite upload_data_run, Hf. done.
Qed.

Lemma upload_missing_file_witness :
  run (Sample.world "ABC123" Sample.second_fails) (Parsed (Upload "contact" "missing.csv"))
  = (0, [ OpenRead "api_key.key";
          LogError ("CSV file '" +:+ "missing.csv" +:+ "' not found.");
          Print ("Error: CSV file '" +:+ "missing.csv" +:+ "' not found.");
          LogError ("Error: CSV file '" +:+ "missing.csv" +:+ "' not found.") ])
  /\ csv_reads (effects (Sample.world "ABC123" Sample.second_fails)
                  (Parsed (Upload "contact" "missing.csv"))) = []
  /\ posts (effects (Sample.world "ABC123" Sample.second_fails)
              (Parsed (Upload "contact" "missing.csv"))) = [].
Proof.
  apply (upload_missing_file (Sample.world "ABC123" Sample.second_fails)
           "ABC123" "contact" "missing.csv");
    vm_compute; reflexivity.
Defined.

(** X14. When the upload file exists but [pd.read_csv] raises, no request is
    sent, whatever the type. A [ValueError] (an empty or malformed table) or
    a [FileNotFoundError] is printed and logged by the script as [Error:]
    followed by its text, with exit code 0; any other exception is not
    caught and ends the process with a traceback and exit code 1. *)
Theorem upload_unreadable_table (E : env) (content data_type file_path : string)
    (n : node) (e : exn) :
  env_fs E !! "api_key.key" = Some (File content) ->
  env_fs E !! file_path = Some n ->
  env_read_csv E file_path = inl e ->
  posts (effects E (Parsed (Upload data_type file_path))) = []
  /\ run E (Parsed (Upload data_type file_path))
     = match exn_cls e with
       | FileNotFoundError | ValueError =>
           (0, [ OpenRead "api_key.key"; ReadCsv file_path;
                 Print ("Error: " +:+ exn_msg e); LogError ("Error: " +:+ exn_msg e) ])
       | _ => (1, [ OpenRead "api_key.key"; ReadCsv file_path; Traceback e ])
       end.
Proof.
  intros Hkey Hf Hread. unfold effects.
  rewrite (run_upload E content Hkey).
  rewrite upload_data_run, Hf, Hread.
  unfold is_FileNotFoundError_or_ValueError.
  by destruct (exn_cls e).
Qed.

Lemma upload_unreadable_table_witness :
  (posts (effects Sample.unreadable_tables (Parsed (Upload "contact" "empty.csv"))) = []
   /\ run Sample.unreadable_tables (Parsed (Upload "contact" "empty.csv"))
      = (0, [ OpenRead "api_key.key"; ReadCsv "empty.csv";
              Print ("Error: " +:+ "No columns to parse from file");
              LogError ("Error: " +:+ "No columns to parse from file") ]))
  /\ (posts (effects Sample.unreadable_tables (Parsed (Upload "contact" "data"))) = []
      /\ run Sample.unreadable_tables (Parsed (Upload "contact" "data"))
         = (1, [ OpenRead "api_key.key"; ReadCsv "data";
                 Traceback (Exn OtherException "[Errno 21] Is a directory: 'data'") ])).
Proof.
  split.
  - apply (upload_unreadable_table Sample.unreadable_tables "ABC123" "contact" "empty.csv"
             (File EmptyString) (Exn ValueError "No columns to parse from file"));
      vm_compute; reflexivity.
  - apply (upload_unreadable_table Sample.unreadable_tables "ABC123" "contact" "data"
             Dir (Exn OtherException "[Errno 21] Is a directory: 'data'"));
      vm_compute; reflexivity.
Defined.

Lemma upload_events_logged_all (E : env) (url : string) (h : headers_t) (k : nat)
    (rows : list row) :
  logged (upload_events E url h k rows)
  = concat (imap (fun i r =>
                    match call_error (env_post E (k + i) (upload_request url h r)) with
                    | Some e => [error_report e]
                    | None => []
                    end) rows).
Proof.
  revert k. induction rows as [|r rows IH]; intros k; [done|].
  cbn [upload_events imap concat]. rewrite Nat.add_0_r.
  change (logged (Post (upload_request url h r)
                  :: ?tr)) with (logged tr).
  rewrite logged_app, IH.
  assert (imap ((fun i x =>
                   match call_error (env_post E (k + i) (upload_request url h x)) with
                   | Some e => [error_report e]
                   | None => []
                   end) ∘ S) rows
          = imap (fun i x =>
                    match call_error (env_post E (S k + i) (upload_request url h x)) with
                    | Some e => [error_report e]
                    | None => []
                    end) rows) as ->.
  { apply imap_ext. intros i x _. simpl. by rewrite Nat.add_succ_r. }
  by destruct (call_error _).
Qed.

(** X15. An upload of a loaded table calls [print] exactly once per row, in
    row order: with the report of the failure when the call of the row
    failed, with [Successfully uploaded:] followed by [str(row)] otherwise
    (a text that may span several lines). It logs exactly the reports of the
    failed rows, in row order, and nothing else; so when no call fails
    nothing is logged. *)
Theorem upload_lines_and_log (E : env) (content data_type file_path url : string)
    (n : node) (rows : list row) :
  env_fs E !! "api_key.key" = Some (File content) ->
  env_fs E !! file_path = Some n ->
  env_read_csv E file_path = inr rows ->
  (data_type = "contact" /\ url = "https://api.apollo.io/v1/contacts"
   \/ data_type = "company" /\ url = "https://api.apollo.io/v1/accounts") ->
  printed (effects E (Parsed (Upload data_type file_path)))
  = imap (fun i r =>
            match call_error (env_post E i
                                (upload_request url (make_headers (PyStr.strip content)) r)) with
            | Some e => error_report e
            | None => "Successfully uploaded: " +:+ env_str_row E r
            end) rows
  /\ logged (effects E (Parsed (Upload data_type file_path)))
     = concat (imap (fun i r =>
                       match call_error (env_post E i
                                           (upload_request url
                                              (make_headers (PyStr.strip content)) r)) with
                       | Some e => [error_report e]
                       | None => []
                       end) rows)
  /\ length (printed (effects E (Parsed (Upload data_type file_path)))) = length rows.
Proof.
  intros Hkey Hf Hread Htype.
  assert (upload_url data_type = Some url) as Hurl.
  { unfold upload_url. destruct Htype as [[-> ->]|[-> ->]]; reflexivity. }
  unfold effects.
  rewrite (run_upload_rows E content Hkey data_type file_path url n rows Hf Hread Hurl).
  cbn [snd]. rewrite printed_app, logged_app.
  rewrite upload_events_printed, upload_events_logged_all.
  cbn [printed logged app]. split; [done|]. split; [done|].
  by rewrite length_imap.
Qed.

Lemma upload_lines_and_log_witness :
  printed (effects (Sample.world "ABC123" Sample.second_fails)
             (Parsed (Upload "company" "rows.csv")))
  = imap (fun i r =>
            match call_error (env_post (Sample.world "ABC123" Sample.second_fails) i
                                (upload_request "https://api.apollo.io/v1/accounts"
                                   (make_headers (PyStr.strip "ABC123")) r)) with
            | Some e => error_report e
            | None => "Successfully uploaded: "
                      +:+ env_str_row (Sample.world "ABC123" Sample.second_fails) r
            end) Sample.rows3
  /\ logged (effects (Sample.world "ABC123" Sample.second_fails)
               (Parsed (Upload "company" "rows.csv")))
     = concat (imap (fun i r =>
                       match call_error (env_post (Sample.world "ABC123" Sample.second_fails) i
                                           (upload_request "https://api.apollo.io/v1/accounts"
                                              (make_headers (PyStr.strip "ABC123")) r)) with
                       | Some e => [error_report e]
                       | None => []
                       end) Sample.rows3)
  /\ length (printed (effects (Sample.world "ABC123" Sample.second_fails)
                        (Parsed (Upload "company" "rows.csv")))) = length Sample.rows3.
Proof.
  apply (upload_lines_and_log (Sample.world "ABC123" Sample.second_fails)
           "ABC123" "company" "rows.csv" "https://api.apollo.io/v1/accounts"
           (File Sample.table_text) Sample.rows3).
  - vm_compute. reflexivity.
  - vm_compute. reflexivity.
  - vm_compute. reflexivity.
  - right. split; reflexivity.
Defined.

(** ** The run as a whole *)

Lemma file_reads_app (tr1 tr2 : list event) :
  file_reads (tr1 ++ tr2) = file_reads tr1 ++ file_reads tr2.
Proof.
  induction tr1 as [|e tr1 IH]; [done|].
  destruct e; simpl; by rewrite ?IH.
Qed.

Lemma file_reads_none (tr : list event) :
  Forall (fun e => file_reads [e] = []) tr -> file_reads tr = [].
Proof.
  induction 1 as [|e tr He _ IH]; [done|].
  change (e :: tr) with ([e] ++ tr). by rewrite file_reads_app, He, IH.
Qed.

(** After the credential was read, the script only prints, logs, reads the
    table, sends requests and lets docopt write: if [P] holds of all those
    effects, it holds of everything the script adds to the trace. *)
Lemma script_appends (P : event -> Prop) (E : env) (h : headers_t) (argv : docopt_result) :
  (forall msg, P (Print msg)) -> (forall msg, P (LogError msg)) ->
  (forall path, P (ReadCsv path)) -> (forall r, P (Post r)) ->
  (forall msg, P (DocoptMessage msg)) ->
  appends P
    (arguments ← docopt argv ;
     match arguments with
     | Company query => company_branch E h query
     | Create name email company => create_branch E h name email company
     | Upload data_type file_path => upload_branch E h data_type file_path
     | Enrich domains => enrich_branch E h domains
     end).
Proof.
  intros HPrint HLog HCsv HPost HDoc.
  assert (forall data, appends P (pretty_print_json data)) as Hpp.
  { intros data. unfold pretty_print_json, print, logger_error.
    destruct data; repeat appends_step; auto.
    all: match goal with x : (nat * json)%type |- _ => destruct x end;
      repeat appends_step; auto. }
  apply appends_bind.
  - destruct argv; simpl; repeat appends_step; auto.
  - intros [q|n e c|t f|ds].
    + unfold company_branch, main_clauses, response_json, print, logger_error.
      repeat appends_step; auto.
    + unfold create_branch, main_clauses, response_json, print, logger_error.
      repeat appends_step; auto.
    + unfold upload_branch, upload_data, upload_clauses, read_csv, print, logger_error.
      repeat appends_step; auto.
    + unfold enrich_branch, enrich_domains, response_json, print, logger_error.
      repeat appends_step; auto.
Qed.

Lemma csv_reads_app (tr1 tr2 : list event) :
  csv_reads (tr1 ++ tr2) = csv_reads tr1 ++ csv_reads tr2.
Proof.
  induction tr1 as [|e tr1 IH]; [done|].
  destruct e; simpl; by rewrite ?IH.
Qed.

Lemma csv_reads_none (tr : list event) :
  Forall (fun e => csv_reads [e] = []) tr -> csv_reads tr = [].
Proof.
  induction 1 as [|e tr He _ IH]; [done|].
  change (e :: tr) with ([e] ++ tr). by rewrite csv_reads_app, He, IH.
Qed.

(** The branches that send one request only print, log and send. *)
Lemma one_request_appends (P : event -> Prop) (E : env) (h : headers_t) (a : arguments) :
  (forall msg, P (Print msg)) -> (forall msg, P (LogError msg)) ->
  (forall r, P (Post r)) ->
  match a with Upload _ _ => False | _ => True end ->
  appends P
    match a with
    | Company query => company_branch E h query
    | Create name email company => create_branch E h name email company
    | Upload data_type file_path => upload_branch E h data_type file_path
    | Enrich domains => enrich_branch E h domains
    end.
Proof.
  intros HPrint HLog HPost Ha.
  assert (forall data, appends P (pretty_print_json data)) as Hpp.
  { intros data. unfold pretty_print_json, print, logger_error.
    destruct data; repeat appends_step; auto.
    all: match goal with x : (nat * json)%type |- _ => destruct x end;
      repeat appends_step; auto. }
  destruct a as [q|n e c|t f|ds]; [| |done|].
  - unfold company_branch, main_clauses, response_json, print, logger_error.
    repeat appends_step; auto.
  - unfold create_branch, main_clauses, response_json, print, logger_error.
    repeat appends_step; auto.
  - unfold enrich_branch, enrich_domains, response_json, print, logger_error.
    repeat appends_step; auto.
Qed.

Lemma upload_events_csv_reads (E : env) (url : string) (h : headers_t) (k : nat)
    (rows : list row) :
  csv_reads (upload_events E url h k rows) = [].
Proof.
  revert k. induction rows as [|r rows IH]; intros k; [done|].
  cbn [upload_events]. change (csv_reads (Post ?r :: ?tr)) with (csv_reads tr).
  rewrite csv_reads_app, IH. by destruct (call_error _).
Qed.

(** X16. The credential file is read once, at startup: when it is a readable
    file, reading it is the first effect of every run, whatever the command
    line and whatever the service answers, and the script opens no file
    with [open] after it. The only other file access of a run is
    [pd.read_csv] on the upload path: it is called once by an [upload]
    whose path exists, and never otherwise. *)
Theorem credential_read_once (E : env) (content : string) (argv : docopt_result) :
  env_fs E !! "api_key.key" = Some (File content) ->
  exists rest,
    effects E argv = OpenRead "api_key.key" :: rest
    /\ file_reads rest = []
    /\ csv_reads rest
       = match argv with
         | Parsed (Upload _ file_path) =>
             if path_exists E file_path then [file_path] else []
         | _ => []
         end.
Proof.
  intros Hkey.
  assert (exists rest,
            effects E argv = OpenRead "api_key.key" :: rest /\ file_reads rest = [])
    as (rest & Heff & Hfiles).
  { unfold effects, run. rewrite (main_with_key _ _ _ Hkey).
    pose proof (script_appends (fun e => file_reads [e] = []) E
                  (make_headers (PyStr.strip content)) argv
                  (fun _ => eq_refl) (fun _ => eq_refl) (fun _ => eq_refl)
                  (fun _ => eq_refl) (fun _ => eq_refl)
                  (State [OpenRead "api_key.key"] 0)) as (tr & Htr & Hall).
    match type of Htr with
    | trace (?x).1 = _ => destruct x as [s [[]|e|c]]
    end; cbn [fst snd trace] in *; rewrite Htr.
    - exists tr. split; [done|]. by apply file_reads_none.
    - exists (tr ++ [Traceback e]). split; [done|].
      rewrite file_reads_app, (file_reads_none _ Hall). done.
    - exists tr. split; [done|]. by apply file_reads_none. }
  exists rest. split; [exact Heff|]. split; [exact Hfiles|].
  assert (csv_reads (effects E argv) = csv_reads rest) as <- by (by rewrite Heff).
  clear rest Heff Hfiles.
  assert (forall t f, argv = Parsed (Upload t f) ->
            csv_reads (effects E argv) = if path_exists E f then [f] else [])
    as Hupload.
  { intros t f ->. unfold effects.
    rewrite (run_upload E content Hkey), upload_data_run.
    destruct (env_fs E !! f) as [n|] eqn:Hf.
    - rewrite (path_exists_Some _ _ _ Hf).
      destruct (env_read_csv E f) as [e|rows].
      + by destruct (is_FileNotFoundError_or_ValueError e).
      + destruct (upload_url t) as [url|]; [|done].
        cbn [snd trace app csv_reads]. by rewrite upload_events_csv_reads.
    - by rewrite (path_exists_None _ _ Hf). }
  assert (forall a, match a with Upload _ _ => False | _ => True end ->
                    csv_reads (effects E (Parsed a)) = []) as Hother.
  { intros a Ha. unfold effects, run. rewrite (main_with_key _ _ _ Hkey).
    rewrite bind_run. cbn [docopt]. rewrite ret_run. cbv beta iota.
    pose proof (one_request_appends (fun e => csv_reads [e] = []) E
                  (make_headers (PyStr.strip content)) a
                  (fun _ => eq_refl) (fun _ => eq_refl) (fun _ => eq_refl) Ha
                  (State [OpenRead "api_key.key"] 0)) as (tr & Htr & Hall).
    match type of Htr with
    | trace (?x).1 = _ => destruct x as [s [[]|e|c]]
    end; cbn [fst snd trace] in *; rewrite Htr.
    - by rewrite csv_reads_app, (csv_reads_none _ Hall).
    - by rewrite !csv_reads_app, (csv_reads_none _ Hall).
    - by rewrite csv_reads_app, (csv_reads_none _ Hall). }
  destruct argv as [[q|n e c|t f|ds]|msg code].
  - by apply Hother.
  - by apply Hother.
  - by apply (Hupload t f).
  - by apply Hother.
  - unfold effects, run. rewrite (main_with_key _ _ _ Hkey).
    rewrite bind_run. cbn [docopt]. rewrite bind_run, emit_run. reflexivity.
Qed.

Lemma credential_read_once_witness :
  exists rest,
    effects (Sample.world "ABC123" Sample.second_fails) (Parsed (Upload "contact" "rows.csv"))
    = OpenRead "api_key.key" :: rest
    /\ file_reads rest = []
    /\ csv_reads rest = ["rows.csv"].
Proof.
  apply (credential_read_once (Sample.world "ABC123" Sample.second_fails) "ABC123"
           (Parsed (Upload "contact" "rows.csv"))).
  vm_compute. reflexivity.
Defined.

(** X17. The exit code of every run. Without a readable credential file it
    is 1. With one, it is the code docopt exits with when docopt ends the
    process itself; it is 1 when [upload] is given an existing path on which
    [pd.read_csv] raises something other than a [ValueError] or a
    [FileNotFoundError]; and it is 0 in every other case, whatever the
    service answers. *)
Theorem exit_code_of_run (E : env) (argv : docopt_result) :
  exit_code E argv
  = match env_fs E !! "api_key.key" with
    | Some (File _) =>
        match argv with
        | DocoptExit _ code => code
        | Parsed (Upload _ file_path) =>
            match env_fs E !! file_path, env_read_csv E file_path with
            | Some _, inl e => if is_FileNotFoundError_or_ValueError e then 0 else 1
            | _, _ => 0
            end
        | Parsed _ => 0
        end
    | _ => 1
    end.
Proof.
  unfold exit_code.
  destruct (env_fs E !! "api_key.key") as [[content|]|] eqn:Hkey.
  - destruct argv as [[query|name email company|t f|domains]|msg code].
    + by rewrite (run_company E content Hkey).
    + by rewrite (run_create E content Hkey).
    + rewrite (run_upload E content Hkey), upload_data_run.
      destruct (env_fs E !! f) as [n|]; [|done].
      destruct (env_read_csv E f) as [e|rows].
      * by destruct (is_FileNotFoundError_or_ValueError e).
      * by destruct (upload_url t).
    + by rewrite (run_enrich E content Hkey).
    + unfold run. by rewrite (main_with_key _ _ _ Hkey).
  - by rewrite (run_key_directory E argv Hkey).
  - by rewrite (run_without_key E argv Hkey).
Qed.

(** The exit codes of X17, run: a service that always fails, a usage error
    of docopt, a table that pandas cannot open, and no credential. *)
Example exit_codes_run :
  exit_code (Sample.world "ABC123" (Sample.always (inl (Exn OtherException "timed out"))))
    (Parsed (Upload "contact" "rows.csv")) = 0
  /\ exit_code (Sample.world "ABC123" Sample.second_fails) (DocoptExit "Usage: ..." 1) = 1
  /\ exit_code Sample.unreadable_tables (Parsed (Upload "contact" "empty.csv")) = 0
  /\ exit_code Sample.unreadable_tables (Parsed (Upload "contact" "data")) = 1
  /\ exit_code Sample.no_key (DocoptExit "Apollo API Client 1.0" 0) = 1.
Proof. repeat split; vm_compute; reflexivity. Qed.

(** X18. When docopt ends the process itself (for [--help], [--version] or a
    command line that matches no usage pattern), the credential file has
    already been read and nothing else happens: docopt writes its text, no
    handler runs, no request is sent, and the exit code is docopt's. *)
Theorem docopt_exit_after_credential (E : env) (content msg : string) (code : Z) :
  env_fs E !! "api_key.key" = Some (File content) ->
  run E (DocoptExit msg code)
  = (code, [ OpenRead "api_key.key"; DocoptMessage msg ]).
Proof.
  intros Hkey. unfold run. rewrite (main_with_key _ _ _ Hkey).
  rewrite bind_run. cbn [docopt]. rewrite bind_run, emit_run. reflexivity.
Qed.

Lemma docopt_exit_after_credential_witness :
  run (Sample.world "ABC123" Sample.second_fails) (DocoptExit "Apollo API Client 1.0" 0)
  = (0, [ OpenRead "api_key.key"; DocoptMessage "Apollo API Client 1.0" ]).
Proof.
  apply (docopt_exit_after_credential (Sample.world "ABC123" Sample.second_fails)
           "ABC123" "Apollo API Client 1.0" 0).
  vm_compute. reflexivity.
Defined.

(** X19. A company search whose answer has an accepted status but a body
    that does not decode as JSON prints nothing of the answer: the
    exception of [response.json()] is printed and then logged as
    [An error occurred:] followed by its text, and the exit code is 0. *)
Theorem company_undecodable_body (E : env) (content query : string)
    (resp : response) (e : exn) :
  env_fs E !! "api_key.key" = Some (File content) ->
  env_post E 0 (company_request (make_headers (PyStr.strip content)) query) = inr resp ->
  status_code resp < 400 \/ 600 <= status_code resp ->
  resp_json resp = inl e ->
  is_HTTPError e = false ->
  run E (Parsed (Company query))
  = (0, [ OpenRead "api_key.key";
          Post (company_request (make_headers (PyStr.strip content)) query);
          Print ("An error occurred: " +:+ exn_msg e);
          LogError ("An error occurred: " +:+ exn_msg e) ]).
Proof.
  intros Hkey Hpost Hstatus Hjson Hcls.
  rewrite (run_company E content Hkey), Hpost. cbn [company_events].
  rewrite (http_error_none _ Hstatus), Hjson.
  unfold report_events, error_report. by rewrite Hcls.
Qed.

Lemma company_undecodable_body_witness :
  run (Sample.world "ABC123"
         (Sample.always (inr (Sample.answer 200 "OK" "<html>" Sample.not_json))))
      (Parsed (Company "Acme"))
  = (0, [ OpenRead "api_key.key";
          Post (company_request (make_headers (PyStr.strip "ABC123")) "Acme");
          Print ("An error occurred: " +:+ "Expecting value: line 1 column 1 (char 0)");
          LogError ("An error occurred: " +:+ "Expecting value: line 1 column 1 (char 0)") ]).
Proof.
  apply (company_undecodable_body
           (Sample.world "ABC123"
              (Sample.always (inr (Sample.answer 200 "OK" "<html>" Sample.not_json))))
           "ABC123" "Acme" (Sample.answer 200 "OK" "<html>" Sample.not_json)
           (Exn ValueError "Expecting value: line 1 column 1 (char 0)")).
  - vm_compute. reflexivity.
  - vm_compute. reflexivity.
  - left. simpl. lia.
  - reflexivity.
  - reflexivity.
Defined.

Lemma upload_events_blocks (E : env) (url : string) (h : headers_t) (k : nat)
    (rows : list row) :
  upload_events E url h k rows
  = concat (imap (fun i r =>
                    Post (upload_request url h r)
                    :: match call_error (env_post E (k + i) (upload_request url h r)) with
                       | Some e => [LogError (error_report e); Print (error_report e)]
                       | None => [Print ("Successfully uploaded: " +:+ env_str_row E r)]
                       end) rows).
Proof.
  revert k. induction rows as [|r rows IH]; intros k; [done|].
  cbn [upload_events imap concat]. rewrite Nat.add_0_r, IH.
  assert (imap ((fun i x =>
                   Post (upload_request url h x)
                   :: match call_error (env_post E (k + i) (upload_request url h x)) with
                      | Some e => [LogError (error_report e); Print (error_report e)]
                      | None => [Print ("Successfully uploaded: " +:+ env_str_row E x)]
                      end) ∘ S) rows
          = imap (fun i x =>
                    Post (upload_request url h x)
                    :: match call_error (env_post E (S k + i) (upload_request url h x)) with
                       | Some e => [LogError (error_report e); Print (error_report e)]
                       | None => [Print ("Successfully uploaded: " +:+ env_str_row E x)]
                       end) rows) as ->.
  { apply imap_ext. intros i x _. simpl. by rewrite Nat.add_succ_r. }
  reflexivity.
Qed.

(** X20. An upload of a loaded table works through the rows one after the
    other: after the table is read, the run is, for each row in order, the
    request of the row followed at once by what the row leaves behind, the
    failure report logged and then printed, or the success line printed.
    The request of a row is therefore issued only after the previous row
    was dealt with; nothing is batched and nothing is sent twice. *)
Theorem upload_is_sequential (E : env) (content data_type file_path url : string)
    (n : node) (rows : list row) :
  env_fs E !! "api_key.key" = Some (File content) ->
  env_fs E !! file_path = Some n ->
  env_read_csv E file_path = inr rows ->
  (data_type = "contact" /\ url = "https://api.apollo.io/v1/contacts"
   \/ data_type = "company" /\ url = "https://api.apollo.io/v1/accounts") ->
  effects E (Parsed (Upload data_type file_path))
  = OpenRead "api_key.key" :: ReadCsv file_path
    :: concat (imap (fun i r =>
                       Post (upload_request url (make_headers (PyStr.strip content)) r)
                       :: match call_error
                                  (env_post E i
                                     (upload_request url
                                        (make_headers (PyStr.strip content)) r)) with
                          | Some e => [LogError (error_report e); Print (error_report e)]
                          | None => [Print ("Successfully uploaded: " +:+ env_str_row E r)]
                          end) rows).
Proof.
  intros Hkey Hf Hread Htype.
  assert (upload_url data_type = Some url) as Hurl.
  { unfold upload_url. destruct Htype as [[-> ->]|[-> ->]]; reflexivity. }
  unfold effects.
  rewrite (run_upload_rows E content Hkey data_type file_path url n rows Hf Hread Hurl).
  cbn [snd app]. by rewrite upload_events_blocks.
Qed.

Lemma upload_is_sequential_witness :
  effects (Sample.world "ABC123" Sample.second_fails) (Parsed (Upload "contact" "rows.csv"))
  = OpenRead "api_key.key" :: ReadCsv "rows.csv"
    :: concat (imap (fun i r =>
                       Post (upload_request "https://api.apollo.io/v1/contacts"
                               (make_headers (PyStr.strip "ABC123")) r)
                       :: match call_error
                                  (env_post (Sample.world "ABC123" Sample.second_fails) i
                                     (upload_request "https://api.apollo.io/v1/contacts"
                                        (make_headers (PyStr.strip "ABC123")) r)) with
                          | Some e => [LogError (error_report e); Print (error_report e)]
                          | None => [Print ("Successfully uploaded: "
                                            +:+ env_str_row
                                                  (Sample.world "ABC123" Sample.second_fails) r)]
                          end) Sample.rows3).
Proof.
  apply (upload_is_sequential (Sample.world "ABC123" Sample.second_fails)
           "ABC123" "contact" "rows.csv" "https://api.apollo.io/v1/contacts"
           (File Sample.table_text) Sample.rows3).
  - vm_compute. reflexivity.
  - vm_compute. reflexivity.
  - vm_compute. reflexivity.
  - left. split; reflexivity.
Defined.

Lemma item_lines_are_prints (items : list json) (k : nat) :
  length (concat (imap (fun i item => item_lines (k + i) item) items))
  = (2 * length items)%nat
  /\ Forall (fun e => exists text, e = Print text)
       (concat (imap (fun i item => item_lines (k + i) item) items)).
Proof.
  revert k. induction items as [|item items IH]; intros k.
  - split; [done|constructor].
  - cbn [imap concat].
    assert (imap ((fun i x => item_lines (k + i) x) ∘ S) items
            = imap (fun i x => item_lines (S k + i) x) items) as ->.
    { apply imap_ext. intros i x _. simpl. by rewrite Nat.add_succ_r. }
    destruct (IH (S k)) as [Hlen Hall]. split.
    + rewrite length_app, Hlen. cbn [item_lines length]. lia.
    + apply Forall_app. split; [|exact Hall].
      unfold item_lines. repeat constructor; by eexists.
Qed.

(** X21. For a list of [n] elements the pretty-printer calls [print]
    exactly [2 n] times and does nothing else (it logs nothing and sends
    nothing) and returns normally, whatever the elements are (objects or
    not); for an empty list it leaves the state as it found it. A printed
    text may span several lines. *)
Theorem pretty_print_json_list_calls (items : list json) (s : state) :
  (exists tr,
     pretty_print_json (JArr items) s = (State (trace s ++ tr) (sent s), Ok tt)
     /\ length tr = (2 * length items)%nat
     /\ Forall (fun e => exists text, e = Print text) tr)
  /\ pretty_print_json (JArr []) s = (s, Ok tt).
Proof.
  split.
  - rewrite pretty_print_json_run. cbn [pretty_printed].
    eexists. split; [reflexivity|].
    apply (item_lines_are_prints items 1).
  - rewrite pretty_print_json_run. cbn [pretty_printed imap concat].
    rewrite app_nil_r. by destruct s.
Qed.

(** The floats that are not finite, as the encoder writes them. *)
Example dumps_non_finite :
  dumps (JArr [JFloat "nan"; JFloat "inf"; JFloat "-inf"; JFloat "1.5"]) 4
  = "[" +:+ PyStr.LF +:+ "    NaN," +:+ PyStr.LF +:+ "    Infinity," +:+ PyStr.LF
    +:+ "    -Infinity," +:+ PyStr.LF +:+ "    1.5" +:+ PyStr.LF +:+ "]".
Proof. vm_compute. reflexivity. Qed.
